(** * PingTools: the loss/latency estimator, the client supervisor and the
      server session registry.

    Shallow embedding of [src/Client.cpp] (struct [PingPacket],
    [PingStatistic], class [Pinger], class [Client]) and of
    [src/Server.cpp] (struct [Server::Session], class [Server]).

    Conventions.
    - A [uint32_t] is a [Z] in [[0, 2^32)]; every arithmetic result the
      code stores in one is reduced with [wrap32].  [size_t] is taken to be
      64 bits wide (LP64), reduced with [wrap64].
    - [RunLoop::Now()] is the only impure read of the estimator; the
      callbacks that read it take the clock value as the argument [now].
    - A [std::deque<bool>] is a [list bool], front first. *)

From Stdlib Require Import ZArith Lia.
From stdpp Require Import base list strings.

Open Scope Z_scope.

(** ** Machine integers *)

Definition wrap32 (x : Z) : Z := x mod 2 ^ 32.
Definition wrap64 (x : Z) : Z := x mod 2 ^ 64.

(** [numeric_limits<uint32_t>::max()] *)
Definition UINT32_MAX : Z := 2 ^ 32 - 1.

Definition is_u32 (x : Z) : Prop := 0 <= x < 2 ^ 32.
Definition is_u64 (x : Z) : Prop := 0 <= x < 2 ^ 64.

(** Modelled from the spec: [Time::Tick] is declared in Moe.Core, outside
    this repository; the spec gives it as a 64-bit monotonic tick and the
    members holding one carry the [m_ull] prefix, so it is an unsigned
    64-bit integer here and its arithmetic is reduced with [wrap64]. *)
Definition Tick : Type := Z.

(** ** Wire record and statistics snapshot (Client.cpp, lines 25-43) *)

Record PingPacket : Type := mkPingPacket {
  Seq : Z;          (* uint32_t *)
  SendTime : Tick;
}.

Record PingStatistic : Type := mkPingStatistic {
  TotalPacket : Z;
  PacketLost : Z;
  AvailablePacket : Z;
  LatencyTotal : Z;
  MaxLatency : Z;
  MinLatency : Z;
}.

(** ** class Pinger (Client.cpp, lines 45-136) *)

Module Pinger.

Record t : Type := mk {
  m_uInterval : Z;               (* const uint32_t *)
  m_uTimeout : Z;                (* const uint32_t *)
  m_ullNextSendTime : Tick;
  m_uNextSeq : Z;
  m_stPingWindow : list bool;
  m_uTotalPacket : Z;
  m_uPacketLost : Z;
  m_uAvailablePacket : Z;
  m_uLatencyTotal : Z;
  m_uMaxLatency : Z;
  m_uMinLatency : Z;
}.

(** [Pinger(interval, timeout)] with the default member initialisers. *)
Definition create (interval timeout : Z) : t :=
  {| m_uInterval := interval; m_uTimeout := timeout;
     m_ullNextSendTime := 0; m_uNextSeq := 0; m_stPingWindow := [];
     m_uTotalPacket := 0; m_uPacketLost := 0; m_uAvailablePacket := 0;
     m_uLatencyTotal := 0; m_uMaxLatency := 0;
     m_uMinLatency := UINT32_MAX |}.

(** The [while] loop of [Update] (lines 58-63): the test is evaluated in
    [size_t]; each round scores the front entry and pops it.  Returns the
    remaining window and the updated [m_uPacketLost]. *)
Fixpoint evict (interval timeout : Z) (window : list bool) (lost : Z)
  : list bool * Z :=
  match window with
  | [] => ([], lost)
  | front :: rest =>
      if timeout <=? wrap64 (Z.of_nat (length window) * interval)
      then evict interval timeout rest
             (if front then lost else wrap32 (lost + 1))
      else (window, lost)
  end.

(** [Optional<PingPacket> Update(Time::Tick now)] (lines 52-77). *)
Definition Update (now : Tick) (p : t) : option PingPacket * t :=
  if m_ullNextSendTime p <=? now then
    let '(window, lost) :=
      evict (m_uInterval p) (m_uTimeout p) (m_stPingWindow p)
            (m_uPacketLost p) in
    let packet := {| Seq := m_uNextSeq p; SendTime := now |} in
    (Some packet,
     {| m_uInterval := m_uInterval p; m_uTimeout := m_uTimeout p;
        m_ullNextSendTime := wrap64 (now + m_uInterval p);
        m_uNextSeq := wrap32 (m_uNextSeq p + 1);
        m_stPingWindow := window ++ [false];
        m_uTotalPacket := wrap32 (m_uTotalPacket p + 1);
        m_uPacketLost := lost;
        m_uAvailablePacket := m_uAvailablePacket p;
        m_uLatencyTotal := m_uLatencyTotal p;
        m_uMaxLatency := m_uMaxLatency p;
        m_uMinLatency := m_uMinLatency p |})
  else (None, p).

(** The index computed at line 81, in [size_t]: the subtraction of the
    two sequence numbers is a [uint32_t] one. *)
Definition offset_of (p : t) (packet : PingPacket) : Z :=
  wrap64 (Z.of_nat (length (m_stPingWindow p))
          - wrap32 (m_uNextSeq p - Seq packet)).

(** [void Recv(const PingPacket&)] (lines 79-95); [now] is the value
    [RunLoop::Now()] returns at line 87. *)
Definition Recv (now : Tick) (packet : PingPacket) (p : t) : t :=
  let offset := offset_of p packet in
  if Z.of_nat (length (m_stPingWindow p)) <=? offset then p
  else if default false (m_stPingWindow p !! Z.to_nat offset) then p
  else
    let elapsed := wrap32 (wrap64 (now - SendTime packet)) in
    {| m_uInterval := m_uInterval p; m_uTimeout := m_uTimeout p;
       m_ullNextSendTime := m_ullNextSendTime p;
       m_uNextSeq := m_uNextSeq p;
       m_stPingWindow := <[Z.to_nat offset := true]> (m_stPingWindow p);
       m_uTotalPacket := m_uTotalPacket p;
       m_uPacketLost := m_uPacketLost p;
       m_uAvailablePacket := wrap32 (m_uAvailablePacket p + 1);
       m_uLatencyTotal := wrap32 (m_uLatencyTotal p + elapsed);
       m_uMaxLatency := Z.max (m_uMaxLatency p) elapsed;
       m_uMinLatency := Z.min (m_uMinLatency p) elapsed |}.

(** [PingStatistic GetStatistic()] (lines 97-107). *)
Definition GetStatistic (p : t) : PingStatistic :=
  {| TotalPacket := m_uTotalPacket p;
     PacketLost := m_uPacketLost p;
     AvailablePacket := m_uAvailablePacket p;
     LatencyTotal := m_uLatencyTotal p;
     MaxLatency := if m_uAvailablePacket p =? 0 then 0 else m_uMaxLatency p;
     MinLatency := if m_uAvailablePacket p =? 0 then 0 else m_uMinLatency p |}.

(** [void Reset()] (lines 109-120): [m_uNextSeq] is not assigned. *)
Definition Reset (p : t) : t :=
  {| m_uInterval := m_uInterval p; m_uTimeout := m_uTimeout p;
     m_ullNextSendTime := 0;
     m_uNextSeq := m_uNextSeq p;
     m_stPingWindow := [];
     m_uTotalPacket := 0; m_uPacketLost := 0; m_uAvailablePacket := 0;
     m_uLatencyTotal := 0; m_uMaxLatency := 0;
     m_uMinLatency := UINT32_MAX |}.

(** *** Calls on one estimator *)

Inductive call : Type :=
| CallUpdate (now : Tick)
| CallRecv (now : Tick) (packet : PingPacket)
| CallReset.

Definition step (p : t) (c : call) : t :=
  match c with
  | CallUpdate now => snd (Update now p)
  | CallRecv now packet => Recv now packet p
  | CallReset => Reset p
  end.

Definition run (p : t) (cs : list call) : t := fold_left step cs p.

(** Number of window entries not yet acknowledged. *)
Fixpoint pending (window : list bool) : Z :=
  match window with
  | [] => 0
  | acked :: rest => (if acked then 0 else 1) + pending rest
  end.

(** The probes a run of calls emits, in order. *)
Definition emit (p : t) (c : call) : list PingPacket :=
  match c with
  | CallUpdate now =>
      match fst (Update now p) with
      | Some packet => [packet]
      | None => []
      end
  | _ => []
  end.

Fixpoint sent (p : t) (cs : list call) : list PingPacket :=
  match cs with
  | [] => []
  | c :: rest => emit p c ++ sent (step p c) rest
  end.

(** The clock value of the last call that carries one. *)
Definition clock (c : call) : option Tick :=
  match c with
  | CallUpdate now => Some now
  | CallRecv now _ => Some now
  | CallReset => None
  end.

Definition last_clock (cs : list call) : Tick :=
  default 0 (last (omap clock cs)).

Definition is_probe_call (c : call) : bool :=
  match c with CallReset => false | _ => true end.

(** The Seq carried by the probe in window slot [i]: the newest slot holds
    [m_uNextSeq - 1], and Seqs are [uint32_t]. *)
Definition window_seq (p : t) (i : nat) : Z :=
  wrap32 (m_uNextSeq p - Z.of_nat (length (m_stPingWindow p)) + Z.of_nat i).

(** No slot of the window carries [seq]: it is older than the oldest
    entry or has not been sent yet. *)
Definition outside_window (p : t) (seq : Z) : Prop :=
  forall i : nat, (i < length (m_stPingWindow p))%nat -> window_seq p i <> seq.

(** The slot the packet indexes, [len - (NextSeq - Seq)], is in the window
    and already acknowledged. *)
Definition already_acked (p : t) (packet : PingPacket) : Prop :=
  exists i : nat,
    Z.of_nat i = Z.of_nat (length (m_stPingWindow p))
                 - wrap32 (m_uNextSeq p - Seq packet)
    /\ m_stPingWindow p !! i = Some true.

(** The constructor arguments, which no member function assigns. *)
Definition configured (interval timeout : Z) (p : t) : Prop :=
  m_uInterval p = interval /\ m_uTimeout p = timeout.

(** Beyond its newest entry, the window is below the timeout threshold. *)
Definition short (interval timeout : Z) (p : t) : Prop :=
  let n := Z.of_nat (length (m_stPingWindow p)) in
  n <= 1 \/ (n - 1) * interval < timeout.

(** Every probe counted in [m_uTotalPacket] is lost, acknowledged or
    still unacknowledged in the window. *)
Definition accounted (p : t) : Prop :=
  0 <= m_uPacketLost p /\ 0 <= m_uAvailablePacket p
  /\ m_uPacketLost p + m_uAvailablePacket p + pending (m_stPingWindow p)
     = m_uTotalPacket p.

(** Send times that lie at least [gap] apart, each from all later ones. *)
Fixpoint spaced (gap : Z) (times : list Tick) : Prop :=
  match times with
  | [] => True
  | t :: rest => Forall (fun u => t + gap <= u) rest /\ spaced gap rest
  end.

(** Every clock value of the calls lies in [[0, bound)]. *)
Definition clocks_below (bound : Z) (cs : list call) : Prop :=
  Forall (fun c => match clock c with
                   | Some now => 0 <= now < bound
                   | None => True
                   end) cs.

(** The latencies line 88 computes over the [Recv] calls of a run, summed
    without wrap-around. *)
Fixpoint elapsed_sum (cs : list call) : Z :=
  match cs with
  | [] => 0
  | CallRecv now packet :: rest =>
      wrap32 (wrap64 (now - SendTime packet)) + elapsed_sum rest
  | _ :: rest => elapsed_sum rest
  end.

Definition is_update (c : call) : bool :=
  match c with CallUpdate _ => true | _ => false end.

(** The number of entries at which the loop of [Update] starts to evict:
    the least [n >= 1] with [n * interval >= timeout]. *)
Definition capacity (interval timeout : Z) : Z :=
  Z.max 1 ((timeout + interval - 1) / interval).

(** The latency total lies between the acknowledged count times the
    extreme latencies. *)
Definition latency_bounds (p : t) : Prop :=
  0 <= m_uAvailablePacket p /\ 0 <= m_uLatencyTotal p
  /\ m_uMinLatency p * m_uAvailablePacket p <= m_uLatencyTotal p
  /\ m_uLatencyTotal p <= m_uMaxLatency p * m_uAvailablePacket p.

End Pinger.

(** ** The Mdr codec

    [Mdr::WriteStruct] and [Mdr::ReadStruct] belong to Moe.Core, outside
    this repository.  The client only needs an encoder and a decoder that
    either yields a packet or throws an [ExceptionBase] ([None] here). *)

Definition BytesView : Type := list Z.

Class MdrCodec : Type := {
  WriteStruct : PingPacket -> BytesView;
  ReadStruct : BytesView -> option PingPacket;
}.

(** A fixed-width little-endian codec, used only to run the model on
    concrete inputs. *)
Fixpoint le_bytes (n : nat) (x : Z) : list Z :=
  match n with
  | O => []
  | S n' => x mod 256 :: le_bytes n' (x / 256)
  end.

Fixpoint le_value (bs : list Z) : Z :=
  match bs with
  | [] => 0
  | b :: rest => b + 256 * le_value rest
  end.

Definition fixed_codec : MdrCodec :=
  {| WriteStruct := fun packet =>
       le_bytes 4 (Seq packet) ++ le_bytes 8 (SendTime packet);
     ReadStruct := fun data =>
       if (length data =? 12)%nat
       then Some {| Seq := le_value (take 4 data);
                    SendTime := le_value (drop 4 data) |}
       else None |}.

Record EndPoint : Type := mkEndPoint {
  Addr : string;
  Port : Z;
}.

(** ** class Client (Client.cpp, lines 140-358) *)

Module Client.

Inductive ChannelState : Type :=
| STATE_TCP_NOT_CONNECT
| STATE_TCP_CONNECTING
| STATE_TCP_CONNECTED.

Definition state_eqb (a b : ChannelState) : bool :=
  match a, b with
  | STATE_TCP_NOT_CONNECT, STATE_TCP_NOT_CONNECT
  | STATE_TCP_CONNECTING, STATE_TCP_CONNECTING
  | STATE_TCP_CONNECTED, STATE_TCP_CONNECTED => true
  | _, _ => false
  end.

(** A socket object is known by the serial number [TcpSocket::Create()]
    or [UdpSocket::Create()] gave it: two members hold the same channel
    object exactly when they hold the same number. *)
Definition SocketId : Type := nat.

Inductive Proto : Type := TCP | UDP.

(** What a handler asks of its collaborators, in program order.  The
    loss percentage of a report line is a floating-point quotient of
    [lost] and [total] and is not carried. *)
Inductive effect : Type :=
| TcpCreate (s : SocketId)
| TcpBindEvent (s : SocketId)
| TcpConnect (s : SocketId) (to : EndPoint)
| TcpStartRead (s : SocketId)
| TcpWrite (s : SocketId) (data : BytesView)
| TcpClose (s : SocketId)
| UdpCreate (s : SocketId)
| UdpBindEvent (s : SocketId)
| UdpStartRead (s : SocketId)
| UdpSend (s : SocketId) (to : EndPoint) (data : BytesView)
| LogPing (proto : Proto) (lost total avg max min : Z)
| SinkPing (proto : Proto) (lost total avg max min : Z)
| LogInfo (msg : string)
| LogError (msg : string) (err : Z)
| LogException.

Record t : Type := mk {
  m_stServerEndPoint : EndPoint;
  m_stTcpSocket : SocketId;
  m_stUdpSocket : SocketId;
  m_uNextSocket : SocketId;      (* serial number of the next Create() *)
  m_iTcpChannelState : ChannelState;
  m_ullNextTryConnectTime : Tick;
  m_ullNextPintStatTime : Tick;
  m_stTcpPinger : Pinger.t;
  m_stUdpPinger : Pinger.t;
  m_pSink : bool;                (* is the rotating file sink set? *)
}.

(** [Client(const Configure&)] (lines 149-169); [output] tells whether
    [cfg.Output] is non-empty. *)
Definition create (server : EndPoint) (interval timeout : Z)
    (output : bool) : t :=
  {| m_stServerEndPoint := server;
     m_stTcpSocket := 0%nat; m_stUdpSocket := 1%nat;
     m_uNextSocket := 2%nat;
     m_iTcpChannelState := STATE_TCP_NOT_CONNECT;
     m_ullNextTryConnectTime := 0;
     m_ullNextPintStatTime := 0;
     m_stTcpPinger := Pinger.create interval timeout;
     m_stUdpPinger := Pinger.create interval timeout;
     m_pSink := output |}.

(** The two log statements of one transport (lines 228-239, 241-252). *)
Definition report (sink : bool) (proto : Proto) (stat : PingStatistic)
  : list effect :=
  let total := wrap32 (PacketLost stat + AvailablePacket stat) in
  let avg := if AvailablePacket stat =? 0 then 0
             else LatencyTotal stat / AvailablePacket stat in
  LogPing proto (PacketLost stat) total avg (MaxLatency stat)
          (MinLatency stat)
  :: (if sink
      then [SinkPing proto (PacketLost stat) total avg (MaxLatency stat)
                     (MinLatency stat)]
      else []).

Section Handlers.
Context {codec : MdrCodec}.

(** [void OnTick()] (lines 195-257). *)
Definition OnTick (now : Tick) (c : t) : t * list effect :=
  let connect :=
    state_eqb (m_iTcpChannelState c) STATE_TCP_NOT_CONNECT
    && (m_ullNextTryConnectTime c <=? now) in
  let state :=
    if connect then STATE_TCP_CONNECTING else m_iTcpChannelState c in
  let '(tcpPacket, tcpPinger) := Pinger.Update now (m_stTcpPinger c) in
  let '(udpPacket, udpPinger) := Pinger.Update now (m_stUdpPinger c) in
  let sends :=
    (if connect
     then [TcpConnect (m_stTcpSocket c) (m_stServerEndPoint c)]
     else [])
    ++ match tcpPacket with
       | Some packet =>
           if state_eqb state STATE_TCP_CONNECTED
           then [TcpWrite (m_stTcpSocket c) (WriteStruct packet)]
           else []
       | None => []
       end
    ++ match udpPacket with
       | Some packet =>
           [UdpSend (m_stUdpSocket c) (m_stServerEndPoint c)
                    (WriteStruct packet)]
       | None => []
       end in
  if m_ullNextPintStatTime c <=? now then
    ({| m_stServerEndPoint := m_stServerEndPoint c;
        m_stTcpSocket := m_stTcpSocket c;
        m_stUdpSocket := m_stUdpSocket c;
        m_uNextSocket := m_uNextSocket c;
        m_iTcpChannelState := state;
        m_ullNextTryConnectTime := m_ullNextTryConnectTime c;
        m_ullNextPintStatTime := wrap64 (now + 60 * 1000);
        m_stTcpPinger := Pinger.Reset tcpPinger;
        m_stUdpPinger := Pinger.Reset udpPinger;
        m_pSink := m_pSink c |},
     sends
     ++ report (m_pSink c) TCP (Pinger.GetStatistic tcpPinger)
     ++ report (m_pSink c) UDP (Pinger.GetStatistic udpPinger))
  else
    ({| m_stServerEndPoint := m_stServerEndPoint c;
        m_stTcpSocket := m_stTcpSocket c;
        m_stUdpSocket := m_stUdpSocket c;
        m_uNextSocket := m_uNextSocket c;
        m_iTcpChannelState := state;
        m_ullNextTryConnectTime := m_ullNextTryConnectTime c;
        m_ullNextPintStatTime := m_ullNextPintStatTime c;
        m_stTcpPinger := tcpPinger;
        m_stUdpPinger := udpPinger;
        m_pSink := m_pSink c |},
     sends).

(** [void OnTcpConnected(int err)] (lines 259-275). *)
Definition OnTcpConnected (err : Z) (now : Tick) (c : t)
  : t * list effect :=
  if err =? 0 then
    ({| m_stServerEndPoint := m_stServerEndPoint c;
        m_stTcpSocket := m_stTcpSocket c;
        m_stUdpSocket := m_stUdpSocket c;
        m_uNextSocket := m_uNextSocket c;
        m_iTcpChannelState := STATE_TCP_CONNECTED;
        m_ullNextTryConnectTime := m_ullNextTryConnectTime c;
        m_ullNextPintStatTime := m_ullNextPintStatTime c;
        m_stTcpPinger := Pinger.Reset (m_stTcpPinger c);
        m_stUdpPinger := m_stUdpPinger c;
        m_pSink := m_pSink c |},
     [LogInfo "Ping server connected"; TcpStartRead (m_stTcpSocket c)])
  else
    ({| m_stServerEndPoint := m_stServerEndPoint c;
        m_stTcpSocket := m_stTcpSocket c;
        m_stUdpSocket := m_stUdpSocket c;
        m_uNextSocket := m_uNextSocket c;
        m_iTcpChannelState := STATE_TCP_NOT_CONNECT;
        m_ullNextTryConnectTime := wrap64 (now + 10 * 1000);
        m_ullNextPintStatTime := m_ullNextPintStatTime c;
        m_stTcpPinger := m_stTcpPinger c;
        m_stUdpPinger := m_stUdpPinger c;
        m_pSink := m_pSink c |},
     [LogError "Connect failed" err]).

(** Lines 282-285 and 308-311: a new socket takes the member's place,
    then [BindTcpEvent] binds the four callbacks on it. *)
Definition recreate_tcp (now : Tick) (c : t) : t * list effect :=
  ({| m_stServerEndPoint := m_stServerEndPoint c;
      m_stTcpSocket := m_uNextSocket c;
      m_stUdpSocket := m_stUdpSocket c;
      m_uNextSocket := S (m_uNextSocket c);
      m_iTcpChannelState := STATE_TCP_NOT_CONNECT;
      m_ullNextTryConnectTime := wrap64 (now + 10 * 1000);
      m_ullNextPintStatTime := m_ullNextPintStatTime c;
      m_stTcpPinger := m_stTcpPinger c;
      m_stUdpPinger := m_stUdpPinger c;
      m_pSink := m_pSink c |},
   [TcpCreate (m_uNextSocket c); TcpBindEvent (m_uNextSocket c)]).

(** [void OnTcpError(int err)] (lines 277-286). *)
Definition OnTcpError (err : Z) (now : Tick) (c : t) : t * list effect :=
  let '(c', effects) := recreate_tcp now c in
  (c', LogError "Tcp socket error" err :: effects).

(** [void OnTcpDataEof()] (lines 302-312). *)
Definition OnTcpDataEof (now : Tick) (c : t) : t * list effect :=
  let '(c', effects) := recreate_tcp now c in
  (c', LogError "Tcp socket: remote EOF" 0
       :: TcpClose (m_stTcpSocket c) :: effects).

(** [void OnTcpData(BytesView data)] (lines 288-300). *)
Definition OnTcpData (data : BytesView) (now : Tick) (c : t)
  : t * list effect :=
  match ReadStruct data with
  | Some packet =>
      ({| m_stServerEndPoint := m_stServerEndPoint c;
          m_stTcpSocket := m_stTcpSocket c;
          m_stUdpSocket := m_stUdpSocket c;
          m_uNextSocket := m_uNextSocket c;
          m_iTcpChannelState := m_iTcpChannelState c;
          m_ullNextTryConnectTime := m_ullNextTryConnectTime c;
          m_ullNextPintStatTime := m_ullNextPintStatTime c;
          m_stTcpPinger := Pinger.Recv now packet (m_stTcpPinger c);
          m_stUdpPinger := m_stUdpPinger c;
          m_pSink := m_pSink c |}, [])
  | None => (c, [LogException])
  end.

(** [void OnUdpData(const EndPoint&, BytesView data)] (lines 314-326):
    the first parameter has no name in the source. *)
Definition OnUdpData (from : EndPoint) (data : BytesView) (now : Tick)
    (c : t) : t * list effect :=
  match ReadStruct data with
  | Some packet =>
      ({| m_stServerEndPoint := m_stServerEndPoint c;
          m_stTcpSocket := m_stTcpSocket c;
          m_stUdpSocket := m_stUdpSocket c;
          m_uNextSocket := m_uNextSocket c;
          m_iTcpChannelState := m_iTcpChannelState c;
          m_ullNextTryConnectTime := m_ullNextTryConnectTime c;
          m_ullNextPintStatTime := m_ullNextPintStatTime c;
          m_stTcpPinger := m_stTcpPinger c;
          m_stUdpPinger := Pinger.Recv now packet (m_stUdpPinger c);
          m_pSink := m_pSink c |}, [])
  | None => (c, [LogException])
  end.

(** [void OnUdpError(int err)] (lines 328-336). *)
Definition OnUdpError (err : Z) (c : t) : t * list effect :=
  ({| m_stServerEndPoint := m_stServerEndPoint c;
      m_stTcpSocket := m_stTcpSocket c;
      m_stUdpSocket := m_uNextSocket c;
      m_uNextSocket := S (m_uNextSocket c);
      m_iTcpChannelState := m_iTcpChannelState c;
      m_ullNextTryConnectTime := m_ullNextTryConnectTime c;
      m_ullNextPintStatTime := m_ullNextPintStatTime c;
      m_stTcpPinger := m_stTcpPinger c;
      m_stUdpPinger := m_stUdpPinger c;
      m_pSink := m_pSink c |},
   [LogError "Udp socket error" err; UdpCreate (m_uNextSocket c);
    UdpBindEvent (m_uNextSocket c); UdpStartRead (m_uNextSocket c)]).

(** Events the run loop delivers to the client, each with the clock
    value at delivery. *)
Inductive event : Type :=
| EvTick (now : Tick)
| EvTcpConnected (err : Z) (now : Tick)
| EvTcpError (err : Z) (now : Tick)
| EvTcpData (data : BytesView) (now : Tick)
| EvTcpDataEof (now : Tick)
| EvUdpData (from : EndPoint) (data : BytesView) (now : Tick)
| EvUdpError (err : Z).

Definition handle (c : t) (e : event) : t * list effect :=
  match e with
  | EvTick now => OnTick now c
  | EvTcpConnected err now => OnTcpConnected err now c
  | EvTcpError err now => OnTcpError err now c
  | EvTcpData data now => OnTcpData data now c
  | EvTcpDataEof now => OnTcpDataEof now c
  | EvUdpData from data now => OnUdpData from data now c
  | EvUdpError err => OnUdpError err c
  end.

(** Runs the events in order and concatenates what they emit. *)
Fixpoint run (c : t) (es : list event) : t * list effect :=
  match es with
  | [] => (c, [])
  | e :: rest =>
      let '(c1, out1) := handle c e in
      let '(c2, out2) := run c1 rest in
      (c2, out1 ++ out2)
  end.

End Handlers.

Definition is_tcp_write (e : effect) : bool :=
  match e with TcpWrite _ _ => true | _ => false end.

Definition is_tcp_report (e : effect) : bool :=
  match e with LogPing TCP _ _ _ _ _ => true | _ => false end.

(** Every event but a successful connect callback. *)
Definition stays_disconnected (e : event) : bool :=
  match e with
  | EvTcpConnected err _ => negb (err =? 0)
  | _ => true
  end.

Definition is_tcp_connect (e : effect) : bool :=
  match e with TcpConnect _ _ => true | _ => false end.

Definition is_udp_send (e : effect) : bool :=
  match e with UdpSend _ _ _ => true | _ => false end.

Definition is_report (e : effect) : bool :=
  match e with
  | LogPing _ _ _ _ _ _ | SinkPing _ _ _ _ _ _ => true
  | _ => false
  end.

Definition is_tick (e : event) : bool :=
  match e with EvTick _ => true | _ => false end.

(** Ticks are the only events compared to [deadline]: each must come
    before it. *)
Definition ticks_before (deadline : Tick) (e : event) : bool :=
  match e with
  | EvTick now => now <? deadline
  | _ => true
  end.

(** The events that reach the UDP estimator: ticks and UDP datagrams. *)
Definition reaches_udp_pinger (e : event) : bool :=
  match e with
  | EvTick _ | EvUdpData _ _ _ => true
  | _ => false
  end.

End Client.

(** ** class Server (Server.cpp, lines 22-144) *)

Module Server.

(** The accepted [TcpSocket] a session owns: [Peer] tells sockets apart,
    [Closed] records that [Close()] was called on it. *)
Record TcpSocket : Type := mkTcpSocket {
  Peer : nat;
  Closed : bool;
}.

Definition Close (s : TcpSocket) : TcpSocket :=
  {| Peer := Peer s; Closed := true |}.

Record Session : Type := mkSession {
  Socket : TcpSocket;
  LastAlive : Tick;
  Dead : bool;
}.

(** [Session(TcpSocket&&)] (lines 30-31). *)
Definition new_Session (socket : TcpSocket) : Session :=
  {| Socket := socket; LastAlive := 0; Dead := true |}.

(** [Session::OnTcpError] (lines 33-37). *)
Definition Session_OnTcpError (err : Z) (s : Session) : Session :=
  {| Socket := Socket s; LastAlive := LastAlive s; Dead := true |}.

(** [Session::OnTcpData] (lines 39-43): returns the session and the bytes
    written back on its socket. *)
Definition Session_OnTcpData (data : BytesView) (now : Tick) (s : Session)
  : Session * BytesView :=
  ({| Socket := Socket s; LastAlive := now; Dead := Dead s |}, data).

(** [Session::OnTcpDataEof] (lines 45-50). *)
Definition Session_OnTcpDataEof (s : Session) : Session :=
  {| Socket := Close (Socket s); LastAlive := LastAlive s; Dead := true |}.

(** [Server::OnTick] (lines 81-99) over [m_stSessions]. *)
Fixpoint OnTick (now : Tick) (sessions : list Session) : list Session :=
  match sessions with
  | [] => []
  | s :: rest =>
      if Dead s then OnTick now rest
      else if wrap64 (LastAlive s + 60 * 1000) <=? now
      then {| Socket := Close (Socket s); LastAlive := LastAlive s;
              Dead := true |} :: OnTick now rest
      else s :: OnTick now rest
  end.

(** [Server::OnTcpConnection] (lines 101-115); [socket] is what
    [m_stTcpSocket.Accept()] returns. *)
Definition OnTcpConnection (socket : TcpSocket) (now : Tick)
    (sessions : list Session) : list Session :=
  let session := new_Session socket in
  sessions ++ [{| Socket := Socket session; LastAlive := now; Dead := false |}].

(** [Server::OnUdpData] (lines 123-126): the datagram goes back to its
    sender. *)
Definition OnUdpData (from : EndPoint) (data : BytesView)
  : EndPoint * BytesView := (from, data).

(** A socket callback reaches the session it was bound to (lines
    109-111); sessions are told apart by their socket. *)
Definition on_session (peer : nat) (f : Session -> Session)
    (sessions : list Session) : list Session :=
  map (fun s => if (Peer (Socket s) =? peer)%nat then f s else s) sessions.

Inductive event : Type :=
| EvTick (now : Tick)
| EvConnection (socket : TcpSocket) (now : Tick)
| EvError (peer : nat) (err : Z)
| EvData (peer : nat) (data : BytesView) (now : Tick)
| EvEof (peer : nat).

Definition handle (sessions : list Session) (e : event) : list Session :=
  match e with
  | EvTick now => OnTick now sessions
  | EvConnection socket now => OnTcpConnection socket now sessions
  | EvError peer err => on_session peer (Session_OnTcpError err) sessions
  | EvData peer data now =>
      on_session peer (fun s => fst (Session_OnTcpData data now s)) sessions
  | EvEof peer => on_session peer Session_OnTcpDataEof sessions
  end.

Definition peers (sessions : list Session) : list nat :=
  map (fun s => Peer (Socket s)) sessions.

(** What the tick makes of a session it finds idle (lines 94-95). *)
Definition expire (s : Session) : Session :=
  {| Socket := Close (Socket s); LastAlive := LastAlive s; Dead := true |}.

Definition live (sessions : list Session) : list Session :=
  filter (fun s => Dead s = false) sessions.

End Server.

(** ** Runs used as worked examples *)

(** Interval 1000, timeout 5000: probes at 0, 1000, ..., 4000 and the
    acknowledgment of Seq 2 arriving at 2100. *)
Definition five_probes : list Pinger.call :=
  [Pinger.CallUpdate 0; Pinger.CallUpdate 1000; Pinger.CallUpdate 2000;
   Pinger.CallRecv 2100 {| Seq := 2; SendTime := 2000 |};
   Pinger.CallUpdate 3000; Pinger.CallUpdate 4000].

(** One probe at 0 that is never acknowledged; at 100000 a packet with a
    Seq that was never sent arrives.  No call after the first sends. *)
Definition lone_probe : list Pinger.call :=
  [Pinger.CallUpdate 0;
   Pinger.CallRecv 100000 {| Seq := 7; SendTime := 0 |}].

(** [n] ticks one second apart, starting at 0. *)
Definition tick_each_second (n : nat) : list Pinger.call :=
  map (fun k : nat => Pinger.CallUpdate (1000 * Z.of_nat k)) (seq 0 n).

(** The client of the worked examples: default interval and timeout, no
    statistics file. *)
Definition server : EndPoint := {| Addr := "192.0.2.1"; Port := 7000 |}.
Definition stranger : EndPoint := {| Addr := "203.0.113.9"; Port := 4444 |}.
Definition client0 : Client.t := Client.create server 1000 10000 false.

(** A minute without a server: the connect attempt of the first tick is
    refused at 50, then the timer fires every 100 ms up to 60000. *)
Definition minute_offline : list Client.event :=
  [Client.EvTick 0; Client.EvTcpConnected (-111) 50]
  ++ map (fun k : nat => Client.EvTick (100 * Z.of_nat k)) (seq 1 600).

(** Thirty seconds of timer ticks, 100 ms apart, and nothing else. *)
Definition thirty_seconds : list Client.event :=
  map (fun k : nat => Client.EvTick (100 * Z.of_nat k)) (seq 0 300).

(** The client after its first tick, at 0: connecting, both estimators
    just reset by the first report. *)
Definition client_started : Client.t :=
  fst (Client.run (codec := fixed_codec) client0 [Client.EvTick 0]).

(** The same client once the connect callback has reported success. *)
Definition client_connected : Client.t :=
  fst (Client.OnTcpConnected 0 30 client_started).

(** Ticks at 100, 200, ..., 10000. *)
Definition ten_seconds : list Client.event :=
  map (fun k : nat => Client.EvTick (100 * Z.of_nat k)) (seq 1 100).

(** Three sessions at the server: the first already dead, the second
    silent since 1000, the third alive at 50000. *)
Definition three_sessions : list Server.Session :=
  [Server.mkSession (Server.mkTcpSocket 1 false) 500 true;
   Server.mkSession (Server.mkTcpSocket 2 false) 1000 false;
   Server.mkSession (Server.mkTcpSocket 3 false) 50000 false].

(** * Properties of the estimator *)

Lemma wrap32_small x : is_u32 x -> wrap32 x = x.
Proof. unfold is_u32, wrap32. intros H. apply Z.mod_small. lia. Qed.

Lemma wrap64_small x : is_u64 x -> wrap64 x = x.
Proof. unfold is_u64, wrap64. intros H. apply Z.mod_small. lia. Qed.

Lemma wrap32_range x : is_u32 (wrap32 x).
Proof. unfold is_u32, wrap32. apply Z.mod_pos_bound. lia. Qed.

Lemma wrap64_range x : is_u64 (wrap64 x).
Proof. unfold is_u64, wrap64. apply Z.mod_pos_bound. lia. Qed.

(** C2, as amended: with Interval=1000 and Timeout=5000 the five ticks
    emit Seqs 0..4 at their own times; the acknowledgment of Seq 2 at 2100
    records a latency of 100 and makes the acknowledged count 1; the tick
    at 6000 finds five entries in the window, evicts exactly one of them
    (Seq 0) and raises the lost count by 1.  Seq 1 is then the front entry
    of the window; it is evicted by the send after that one, as the run
    with a tick at 5000 before the one at 6000 shows. *)
Theorem five_probes_then_6000 :
  let p0 := Pinger.create 1000 5000 in
  let p := Pinger.run p0 five_probes in
  let q := Pinger.run p [Pinger.CallUpdate 6000] in
  Pinger.sent p0 five_probes
    = [mkPingPacket 0 0; mkPingPacket 1 1000; mkPingPacket 2 2000;
       mkPingPacket 3 3000; mkPingPacket 4 4000]
  /\ Pinger.GetStatistic p = mkPingStatistic 5 0 1 100 100 100
  /\ Pinger.m_stPingWindow p = [false; false; true; false; false]
  /\ Pinger.evict 1000 5000 (Pinger.m_stPingWindow p) (Pinger.m_uPacketLost p)
     = ([false; true; false; false], 1)
  /\ Pinger.m_uPacketLost q = Pinger.m_uPacketLost p + 1
  /\ Pinger.m_stPingWindow q = [false; true; false; false; false]
  /\ Pinger.window_seq q 0 = 1
  /\ Pinger.m_uPacketLost
       (Pinger.run p [Pinger.CallUpdate 5000; Pinger.CallUpdate 6000]) = 2.
Proof. vm_compute. repeat split; reflexivity. Qed.

(** C2, as stated, fails: the tick at 6000 does not raise the lost count
    by 2. *)
Lemma five_probes_then_6000_not_two :
  let p := Pinger.run (Pinger.create 1000 5000) five_probes in
  Pinger.m_uPacketLost (Pinger.run p [Pinger.CallUpdate 6000])
  <> Pinger.m_uPacketLost p + 2.
Proof. vm_compute. discriminate. Qed.

(** C7: after [Reset] the snapshot is all zero (the extreme latencies are
    reported as 0), [m_ullNextSendTime] is 0 so that [Update] emits a probe
    at any clock value, and that probe carries the [m_uNextSeq] the
    estimator had before the reset. *)
Theorem Reset_then_Update (p : Pinger.t) (now : Tick) :
  0 <= now ->
  Pinger.GetStatistic (Pinger.Reset p) = mkPingStatistic 0 0 0 0 0 0
  /\ Pinger.m_ullNextSendTime (Pinger.Reset p) = 0
  /\ Pinger.m_uNextSeq (Pinger.Reset p) = Pinger.m_uNextSeq p
  /\ fst (Pinger.Update now (Pinger.Reset p))
     = Some {| Seq := Pinger.m_uNextSeq p; SendTime := now |}
  /\ Pinger.m_uNextSeq (snd (Pinger.Update now (Pinger.Reset p)))
     = wrap32 (Pinger.m_uNextSeq p + 1)
  /\ Pinger.m_uTotalPacket (snd (Pinger.Update now (Pinger.Reset p))) = 1.
Proof.
  intros Hnow. unfold Pinger.Update. cbn [Pinger.Reset Pinger.m_ullNextSendTime].
  destruct (Z.leb_spec 0 now) as [_|Hlt]; [|lia].
  cbn. repeat split; reflexivity.
Qed.

Lemma Reset_then_Update_witness :
  let p := Pinger.run (Pinger.create 1000 5000) five_probes in
  0 <= 4100
  /\ fst (Pinger.Update 4100 (Pinger.Reset p))
     = Some {| Seq := 5; SendTime := 4100 |}.
Proof.
  split; [lia|].
  exact (proj1 (proj2 (proj2 (proj2
    (Reset_then_Update (Pinger.run (Pinger.create 1000 5000) five_probes)
       4100 ltac:(lia)))))).
Defined.

(** ** The window stays short *)

Section WindowBound.

Variables interval timeout : Z.
Hypothesis interval_u32 : is_u32 interval.
Hypothesis timeout_u32 : is_u32 timeout.

(** What the loop of [Update] leaves: nothing, or a window below the
    timeout threshold.  The product of the test cannot wrap as long as the
    one of the first round does not. *)
Lemma evict_leaves (window : list bool) (lost : Z) :
  Z.of_nat (length window) * interval < 2 ^ 64 ->
  let rest := fst (Pinger.evict interval timeout window lost) in
  rest = [] \/ Z.of_nat (length rest) * interval < timeout.
Proof using interval_u32.
  unfold is_u32 in interval_u32.
  revert lost. induction window as [|front window IH]; intros lost Hfit.
  - now left.
  - cbn [Pinger.evict].
    rewrite wrap64_small
      by (unfold is_u64; split; [apply Z.mul_nonneg_nonneg|]; lia).
    destruct (Z.leb_spec timeout
                (Z.of_nat (length (front :: window)) * interval)) as [Hge|Hlt].
    + apply IH. cbn [length] in Hfit. nia.
    + right. exact Hlt.
Qed.

Lemma create_short :
  Pinger.short interval timeout (Pinger.create interval timeout).
Proof. left. cbn. lia. Qed.

Lemma step_configured p c :
  Pinger.configured interval timeout p ->
  Pinger.configured interval timeout (Pinger.step p c).
Proof.
  intros [Hi Ht]. destruct c as [now|now packet|]; cbn [Pinger.step].
  - unfold Pinger.Update.
    destruct (Pinger.m_ullNextSendTime p <=? now); [|now split].
    destruct (Pinger.evict _ _ _ _). now split.
  - unfold Pinger.Recv.
    destruct (_ <=? _); [now split|].
    destruct (default false _); now split.
  - now split.
Qed.

Lemma short_fits p :
  Pinger.short interval timeout p ->
  Z.of_nat (length (Pinger.m_stPingWindow p)) * interval < 2 ^ 64.
Proof using interval_u32 timeout_u32.
  unfold Pinger.short, is_u32 in *. intros [Hle|Hlt]; nia.
Qed.

Lemma step_short p c :
  Pinger.configured interval timeout p -> Pinger.short interval timeout p ->
  Pinger.short interval timeout (Pinger.step p c).
Proof using interval_u32 timeout_u32.
  intros [Hi Ht] Hshort. destruct c as [now|now packet|]; cbn [Pinger.step].
  - unfold Pinger.Update.
    destruct (Pinger.m_ullNextSendTime p <=? now); [|exact Hshort].
    pose proof (evict_leaves (Pinger.m_stPingWindow p) (Pinger.m_uPacketLost p)
                  (short_fits p Hshort)) as Hrest.
    rewrite Hi, Ht.
    destruct (Pinger.evict interval timeout _ _) as [rest lost].
    cbn [fst snd Pinger.m_stPingWindow] in *. unfold Pinger.short.
    cbn [Pinger.m_stPingWindow]. rewrite length_app. cbn [length].
    destruct Hrest as [->|Hlt]; [left; cbn; lia|right; lia].
  - unfold Pinger.Recv.
    destruct (_ <=? _); [exact Hshort|].
    destruct (default false _); [exact Hshort|].
    unfold Pinger.short. cbn [Pinger.m_stPingWindow]. rewrite length_insert.
    exact Hshort.
  - left. cbn. lia.
Qed.

Lemma run_short cs p :
  Pinger.configured interval timeout p -> Pinger.short interval timeout p ->
  Pinger.configured interval timeout (Pinger.run p cs)
  /\ Pinger.short interval timeout (Pinger.run p cs).
Proof using interval_u32 timeout_u32.
  revert p. induction cs as [|c cs IH]; intros p Hc Hs; [now split|].
  cbn. apply IH; [now apply step_configured|now apply step_short].
Qed.

(** C8: in every state reached from a fresh estimator by [Update], [Recv]
    and [Reset] calls, the window length times the interval exceeds the
    timeout by at most one interval; for a positive interval the window
    therefore holds at most [timeout / interval + 1] entries, however long
    the run. *)
Theorem window_bounded (cs : list Pinger.call) :
  let n := Z.of_nat (length (Pinger.m_stPingWindow
                               (Pinger.run (Pinger.create interval timeout) cs))) in
  n * interval <= timeout + interval
  /\ (0 < interval -> n <= timeout / interval + 1).
Proof using interval_u32 timeout_u32.
  destruct (run_short cs (Pinger.create interval timeout)) as [_ Hs];
    [now split|apply create_short|].
  unfold Pinger.short, is_u32 in *. cbn zeta in *.
  set (n := Z.of_nat (length _)) in *.
  assert (Hn : 0 <= n) by (subst n; lia).
  assert (Hmul : n * interval <= timeout + interval) by (destruct Hs; nia).
  split; [exact Hmul|]. intros Hpos.
  replace (timeout / interval + 1) with ((timeout + 1 * interval) / interval)
    by (rewrite Z.div_add by lia; reflexivity).
  apply Z.div_le_lower_bound; lia.
Qed.

End WindowBound.

Lemma window_bounded_witness :
  let n := Z.of_nat (length (Pinger.m_stPingWindow
             (Pinger.run (Pinger.create 1000 5000)
                (five_probes ++ [Pinger.CallUpdate 5000; Pinger.CallReset;
                                 Pinger.CallUpdate 6000])))) in
  is_u32 1000 /\ is_u32 5000
  /\ n * 1000 <= 5000 + 1000 /\ (0 < 1000 -> n <= 5000 / 1000 + 1).
Proof.
  assert (H1 : is_u32 1000) by (unfold is_u32; lia).
  assert (H2 : is_u32 5000) by (unfold is_u32; lia).
  split; [exact H1|]. split; [exact H2|].
  exact (window_bounded 1000 5000 H1 H2
           (five_probes ++ [Pinger.CallUpdate 5000; Pinger.CallReset;
                            Pinger.CallUpdate 6000])).
Defined.

(** ** Every probe is accounted for *)

Lemma pending_nonneg window : 0 <= Pinger.pending window.
Proof. induction window as [|[] window IH]; cbn [Pinger.pending]; lia. Qed.

Lemma pending_app w1 w2 :
  Pinger.pending (w1 ++ w2) = Pinger.pending w1 + Pinger.pending w2.
Proof. induction w1 as [|b w1 IH]; cbn [Pinger.pending app]; lia. Qed.

Lemma pending_ack window (i : nat) :
  window !! i = Some false ->
  Pinger.pending (<[i := true]> window) = Pinger.pending window - 1.
Proof.
  revert i. induction window as [|b window IH]; intros [|i] H;
    try discriminate.
  - injection H as ->. cbn. lia.
  - specialize (IH i H). change (<[S i := true]> (b :: window))
      with (b :: <[i := true]> window).
    cbn [Pinger.pending]. lia.
Qed.

(** The loop of [Update] moves unacknowledged entries from the window to
    the lost count, one for one, as long as the count does not wrap. *)
Lemma evict_accounts interval timeout window lost :
  0 <= lost -> lost + Pinger.pending window < 2 ^ 32 ->
  let r := Pinger.evict interval timeout window lost in
  0 <= snd r /\ snd r + Pinger.pending (fst r) = lost + Pinger.pending window.
Proof.
  revert lost. induction window as [|front window IH]; intros lost H0 Hlt.
  - cbn. lia.
  - cbn [Pinger.evict]. destruct (_ <=? _); [|cbn [fst snd]; lia].
    pose proof (pending_nonneg window).
    cbn [Pinger.pending] in Hlt |- *. destruct front; cbn zeta.
    + destruct (IH lost) as [IH1 IH2]; [lia..|]. cbn zeta in *. lia.
    + rewrite (wrap32_small (lost + 1)) by (unfold is_u32; lia).
      destruct (IH (lost + 1)) as [IH1 IH2]; [lia..|]. cbn zeta in *. lia.
Qed.

Lemma step_accounted p c (n : Z) :
  Pinger.accounted p -> Pinger.m_uTotalPacket p <= n -> n + 1 < 2 ^ 32 ->
  Pinger.accounted (Pinger.step p c)
  /\ Pinger.m_uTotalPacket (Pinger.step p c) <= n + 1.
Proof.
  intros (Hlost & Havail & Hsum) Hn Hfit.
  pose proof (pending_nonneg (Pinger.m_stPingWindow p)) as Hpend.
  destruct c as [now|now packet|]; cbn [Pinger.step].
  - unfold Pinger.Update.
    destruct (Pinger.m_ullNextSendTime p <=? now);
      [|cbn [snd]; split; [now repeat split|lia]].
    destruct (evict_accounts (Pinger.m_uInterval p) (Pinger.m_uTimeout p)
                (Pinger.m_stPingWindow p) (Pinger.m_uPacketLost p))
      as [Hl Hs]; [lia..|].
    destruct (Pinger.evict _ _ _ _) as [rest lost]. cbn [fst snd] in *.
    unfold Pinger.accounted. cbn [Pinger.m_uPacketLost Pinger.m_uAvailablePacket
      Pinger.m_stPingWindow Pinger.m_uTotalPacket].
    rewrite pending_app, wrap32_small by (unfold is_u32; lia).
    cbn [Pinger.pending]. lia.
  - unfold Pinger.Recv.
    destruct (Z.leb_spec (Z.of_nat (length (Pinger.m_stPingWindow p)))
                (Pinger.offset_of p packet)) as [_|Hin];
      [split; [now repeat split|lia]|].
    pose proof (wrap64_range (Z.of_nat (length (Pinger.m_stPingWindow p))
                  - wrap32 (Pinger.m_uNextSeq p - Seq packet))) as [Hoff _].
    fold (Pinger.offset_of p packet) in Hoff.
    destruct (Pinger.m_stPingWindow p !! Z.to_nat (Pinger.offset_of p packet))
      as [[]|] eqn:Hslot; cbn [default from_option id];
      [split; [now repeat split|lia]| |].
    + pose proof (pending_ack _ _ Hslot) as Hack.
      pose proof (pending_nonneg (<[Z.to_nat (Pinger.offset_of p packet) := true]>
                                    (Pinger.m_stPingWindow p))) as Hpend'.
      unfold Pinger.accounted. cbn [Pinger.m_uPacketLost Pinger.m_uAvailablePacket
        Pinger.m_stPingWindow Pinger.m_uTotalPacket].
      rewrite Hack, wrap32_small by (unfold is_u32; lia). lia.
    + apply lookup_ge_None in Hslot. lia.
  - unfold Pinger.accounted. cbn. lia.
Qed.

Lemma run_accounted cs p (n : Z) :
  Pinger.accounted p -> Pinger.m_uTotalPacket p <= n ->
  n + Z.of_nat (length cs) < 2 ^ 32 ->
  Pinger.accounted (Pinger.run p cs).
Proof.
  revert p n. induction cs as [|c cs IH]; intros p n Hacc Hn Hfit; [exact Hacc|].
  cbn [length] in Hfit.
  destruct (step_accounted p c n Hacc Hn) as [Hacc' Hn']; [lia|].
  cbn. apply (IH _ (n + 1)); [assumption..|lia].
Qed.

(** C1, as amended: while fewer than 2^32 calls have been made on the
    estimator, the total equals lost plus acknowledged plus the entries
    still unacknowledged in the window; so lost plus acknowledged is at
    most the total, and equals it exactly when the window holds no
    unacknowledged entry.  Time alone scores nothing: an [Update] that
    does not send leaves the estimator as it is, and one that sends leaves
    its own probe unacknowledged in the window. *)
Theorem counters_account (interval timeout : Z) (cs : list Pinger.call) :
  Z.of_nat (length cs) < 2 ^ 32 ->
  let p := Pinger.run (Pinger.create interval timeout) cs in
  let counted := Pinger.m_uPacketLost p + Pinger.m_uAvailablePacket p in
  counted + Pinger.pending (Pinger.m_stPingWindow p) = Pinger.m_uTotalPacket p
  /\ counted <= Pinger.m_uTotalPacket p
  /\ (counted = Pinger.m_uTotalPacket p
      <-> Pinger.pending (Pinger.m_stPingWindow p) = 0)
  /\ (forall now, now < Pinger.m_ullNextSendTime p ->
        Pinger.Update now p = (None, p))
  /\ (forall now, Pinger.m_ullNextSendTime p <= now ->
        1 <= Pinger.pending
               (Pinger.m_stPingWindow (snd (Pinger.Update now p)))).
Proof.
  intros Hfit p counted.
  assert (Hacc : Pinger.accounted p).
  { apply (run_accounted cs _ 0); [unfold Pinger.accounted; cbn; lia|cbn; lia|lia]. }
  destruct Hacc as (Hlost & Havail & Hsum).
  pose proof (pending_nonneg (Pinger.m_stPingWindow p)) as Hpend.
  subst counted. repeat split; try lia.
  - intros now Hnow. unfold Pinger.Update.
    destruct (Z.leb_spec (Pinger.m_ullNextSendTime p) now); [lia|reflexivity].
  - intros now Hnow. unfold Pinger.Update.
    destruct (Z.leb_spec (Pinger.m_ullNextSendTime p) now); [|lia].
    destruct (Pinger.evict _ _ _ _) as [rest lost].
    cbn [snd Pinger.m_stPingWindow]. rewrite pending_app. cbn [Pinger.pending].
    pose proof (pending_nonneg rest). lia.
Qed.

Lemma counters_account_witness :
  let p := Pinger.run (Pinger.create 1000 5000) five_probes in
  Z.of_nat (length five_probes) < 2 ^ 32
  /\ Pinger.m_uPacketLost p + Pinger.m_uAvailablePacket p
     <= Pinger.m_uTotalPacket p.
Proof.
  assert (H : Z.of_nat (length five_probes) < 2 ^ 32) by (cbn; lia).
  split; [exact H|].
  exact (proj1 (proj2 (counters_account 1000 5000 five_probes H))).
Defined.

(** With a timeout of one interval every send evicts the probe before it:
    the state after [k + 1] unanswered ticks, one second apart. *)
Lemma tick_each_second_state (k : nat) :
  Z.of_nat k < 2 ^ 32 ->
  Pinger.run (Pinger.create 1000 1000) (tick_each_second (S k))
  = Pinger.mk 1000 1000 (1000 * Z.of_nat k + 1000) (wrap32 (Z.of_nat k + 1))
      [false] (wrap32 (Z.of_nat k + 1)) (wrap32 (Z.of_nat k)) 0 0 0 UINT32_MAX.
Proof.
  induction k as [|k IH]; intros Hk; [reflexivity|].
  unfold tick_each_second in *. rewrite seq_S, map_app.
  unfold Pinger.run in *. rewrite fold_left_app, IH by lia.
  cbn [map fold_left Pinger.step Nat.add]. unfold Pinger.Update.
  cbn [Pinger.m_ullNextSendTime Pinger.m_uInterval Pinger.m_uTimeout
       Pinger.m_stPingWindow Pinger.m_uPacketLost].
  destruct (Z.leb_spec (1000 * Z.of_nat k + 1000) (1000 * Z.of_nat (S k)));
    [|lia].
  change (Pinger.evict 1000 1000 [false] (wrap32 (Z.of_nat k)))
    with (@nil bool, wrap32 (wrap32 (Z.of_nat k) + 1)).
  cbn [snd app Pinger.m_uNextSeq Pinger.m_uTotalPacket Pinger.m_uAvailablePacket
       Pinger.m_uLatencyTotal Pinger.m_uMaxLatency Pinger.m_uMinLatency].
  rewrite (wrap64_small (1000 * Z.of_nat (S k) + 1000))
    by (unfold is_u64; lia).
  unfold wrap32. rewrite !Zplus_mod_idemp_l.
  replace (Z.of_nat (S k)) with (Z.of_nat k + 1) by lia. reflexivity.
Qed.

(** C1, as stated, fails in both halves.  A probe sent at 0 and never
    acknowledged is still neither lost nor acknowledged when the clock
    reads 100000, twenty timeouts later, no other probe having been sent;
    and after 2^32 unanswered ticks the total has wrapped to 0 below the
    lost count. *)
Lemma counters_counterexample :
  (let p0 := Pinger.create 1000 5000 in
   let p := Pinger.run p0 lone_probe in
   forallb Pinger.is_probe_call lone_probe = true
   /\ Pinger.sent p0 lone_probe = [{| Seq := 0; SendTime := 0 |}]
   /\ Forall (fun packet => SendTime packet + 5000 < Pinger.last_clock lone_probe)
        (Pinger.sent p0 lone_probe)
   /\ Pinger.m_uPacketLost p + Pinger.m_uAvailablePacket p
      <> Pinger.m_uTotalPacket p)
  /\ (let p := Pinger.run (Pinger.create 1000 1000)
                 (tick_each_second (Z.to_nat (2 ^ 32))) in
      ~ Pinger.m_uPacketLost p + Pinger.m_uAvailablePacket p
        <= Pinger.m_uTotalPacket p).
Proof.
  split.
  - cbn zeta. split; [reflexivity|]. split; [reflexivity|]. split.
    + repeat constructor.
    + vm_compute. discriminate.
  - cbn zeta.
    replace (Z.to_nat (2 ^ 32)) with (S (Z.to_nat (2 ^ 32 - 1))) by lia.
    rewrite tick_each_second_state by lia.
    cbn [Pinger.m_uPacketLost Pinger.m_uAvailablePacket Pinger.m_uTotalPacket].
    rewrite Z2Nat.id by lia. vm_compute. intros H. apply H. reflexivity.
Qed.

(** ** Stale and duplicate acknowledgments *)

Lemma wrap32_sub_sub a s : wrap32 (a - wrap32 (a - s)) = wrap32 s.
Proof.
  unfold wrap32. rewrite Zminus_mod_idemp_r. f_equal. lia.
Qed.

(** The [size_t] comparison of line 82 is the range check
    [1 <= NextSeq - Seq <= size] on the [uint32_t] difference. *)
Lemma offset_in_window p packet :
  Z.of_nat (length (Pinger.m_stPingWindow p)) < 2 ^ 64 ->
  let n := Z.of_nat (length (Pinger.m_stPingWindow p)) in
  let d := wrap32 (Pinger.m_uNextSeq p - Seq packet) in
  (Pinger.offset_of p packet < n <-> 1 <= d <= n)
  /\ (1 <= d <= n -> Pinger.offset_of p packet = n - d).
Proof.
  intros Hsize n d. unfold Pinger.offset_of. fold n d.
  pose proof (wrap32_range (Pinger.m_uNextSeq p - Seq packet)) as Hd.
  fold d in Hd. unfold is_u32 in Hd. unfold wrap64.
  assert (Hn : 0 <= n < 2 ^ 64) by (subst n; lia).
  clearbody n d.
  Z.div_mod_to_equations. lia.
Qed.

Lemma Recv_outside now p packet :
  Z.of_nat (length (Pinger.m_stPingWindow p)) < 2 ^ 64 ->
  is_u32 (Seq packet) ->
  Pinger.outside_window p (Seq packet) ->
  Pinger.Recv now packet p = p.
Proof.
  intros Hsize Hseq Hout.
  destruct (offset_in_window p packet Hsize) as [Hiff _]. cbn zeta in Hiff.
  unfold Pinger.Recv.
  destruct (Z.leb_spec (Z.of_nat (length (Pinger.m_stPingWindow p)))
              (Pinger.offset_of p packet)) as [_|Hin]; [reflexivity|].
  apply Hiff in Hin. exfalso.
  set (n := Z.of_nat (length (Pinger.m_stPingWindow p))) in *.
  set (d := wrap32 (Pinger.m_uNextSeq p - Seq packet)) in *.
  apply (Hout (Z.to_nat (n - d))); [subst n; lia|].
  unfold Pinger.window_seq. fold n. rewrite Z2Nat.id by lia.
  replace (Pinger.m_uNextSeq p - n + (n - d)) with (Pinger.m_uNextSeq p - d)
    by lia.
  subst d. rewrite wrap32_sub_sub. now apply wrap32_small.
Qed.

Lemma Recv_acked now p packet :
  Z.of_nat (length (Pinger.m_stPingWindow p)) < 2 ^ 64 ->
  Pinger.already_acked p packet ->
  Pinger.Recv now packet p = p.
Proof.
  intros Hsize (i & Hi & Hslot).
  destruct (offset_in_window p packet Hsize) as [_ Hoff]. cbn zeta in Hoff.
  pose proof (lookup_lt_Some _ _ _ Hslot) as Hlt.
  pose proof (wrap32_range (Pinger.m_uNextSeq p - Seq packet)) as Hd.
  unfold is_u32 in Hd.
  assert (Hd0 : wrap32 (Pinger.m_uNextSeq p - Seq packet) <> 0 ->
                Pinger.offset_of p packet = Z.of_nat i) by (intros; rewrite Hoff; lia).
  unfold Pinger.Recv.
  destruct (Z.leb_spec (Z.of_nat (length (Pinger.m_stPingWindow p)))
              (Pinger.offset_of p packet)) as [_|Hin]; [reflexivity|].
  rewrite Hd0 by lia. rewrite Nat2Z.id, Hslot. reflexivity.
Qed.

(** A Seq numerically below the window's oldest is outside the window. *)
Lemma older_outside p seq :
  is_u32 (Pinger.m_uNextSeq p) -> 0 <= seq ->
  seq < Pinger.m_uNextSeq p - Z.of_nat (length (Pinger.m_stPingWindow p)) ->
  Pinger.outside_window p seq.
Proof.
  unfold is_u32. intros Hnext Hseq Hold i Hi. unfold Pinger.window_seq.
  rewrite wrap32_small by (unfold is_u32; lia). lia.
Qed.

(** So is a Seq numerically above the newest one sent, as long as the
    Seqs of the window have not wrapped. *)
Lemma newer_outside p seq :
  is_u32 (Pinger.m_uNextSeq p) ->
  Z.of_nat (length (Pinger.m_stPingWindow p)) <= Pinger.m_uNextSeq p ->
  Pinger.m_uNextSeq p - 1 < seq ->
  Pinger.outside_window p seq.
Proof.
  unfold is_u32. intros Hnext Hlen Hnew i Hi. unfold Pinger.window_seq.
  rewrite wrap32_small by (unfold is_u32; lia). lia.
Qed.

(** C6: a packet whose Seq no window slot carries (older than the oldest
    entry, or not sent yet), or whose slot is already acknowledged, leaves
    the estimator as it is: every counter and the window. *)
Theorem Recv_ignores (now : Tick) (p : Pinger.t) (packet : PingPacket) :
  Z.of_nat (length (Pinger.m_stPingWindow p)) < 2 ^ 64 ->
  is_u32 (Seq packet) ->
  Pinger.outside_window p (Seq packet) \/ Pinger.already_acked p packet ->
  Pinger.Recv now packet p = p.
Proof.
  intros Hsize Hseq [Hout|Hacked].
  - now apply Recv_outside.
  - now apply Recv_acked.
Qed.

Lemma Recv_ignores_witness :
  let p := Pinger.run (Pinger.create 1000 5000) five_probes in
  Pinger.already_acked p {| Seq := 2; SendTime := 2000 |}
  /\ Pinger.Recv 2200 {| Seq := 2; SendTime := 2000 |} p = p.
Proof.
  assert (Hacked : Pinger.already_acked
                     (Pinger.run (Pinger.create 1000 5000) five_probes)
                     {| Seq := 2; SendTime := 2000 |}).
  { exists 2%nat. split; reflexivity. }
  split; [exact Hacked|].
  apply Recv_ignores;
    [vm_compute; reflexivity|unfold is_u32; cbn; lia|right; exact Hacked].
Defined.

(** As long as the Seqs have not wrapped, the window reaches back no
    further than Seq 0. *)
Lemma evict_length interval timeout window lost :
  (length (fst (Pinger.evict interval timeout window lost)) <= length window)%nat.
Proof.
  revert lost. induction window as [|front window IH]; intros lost; [reflexivity|].
  cbn [Pinger.evict]. destruct (_ <=? _); [|reflexivity].
  etransitivity; [apply IH|]. cbn [length]. lia.
Qed.

Lemma step_seq p c (n : Z) :
  0 <= Pinger.m_uNextSeq p <= n ->
  Z.of_nat (length (Pinger.m_stPingWindow p)) <= Pinger.m_uNextSeq p ->
  n + 1 < 2 ^ 32 ->
  0 <= Pinger.m_uNextSeq (Pinger.step p c) <= n + 1
  /\ Z.of_nat (length (Pinger.m_stPingWindow (Pinger.step p c)))
     <= Pinger.m_uNextSeq (Pinger.step p c).
Proof.
  intros Hseq Hlen Hfit. destruct c as [now|now packet|]; cbn [Pinger.step].
  - unfold Pinger.Update.
    destruct (Pinger.m_ullNextSendTime p <=? now); [|cbn [snd]; lia].
    pose proof (evict_length (Pinger.m_uInterval p) (Pinger.m_uTimeout p)
                  (Pinger.m_stPingWindow p) (Pinger.m_uPacketLost p)) as Hle.
    destruct (Pinger.evict _ _ _ _) as [rest lost].
    cbn [fst snd Pinger.m_uNextSeq Pinger.m_stPingWindow] in *.
    rewrite length_app, wrap32_small by (unfold is_u32; lia).
    cbn [length]. lia.
  - unfold Pinger.Recv. destruct (_ <=? _); [lia|].
    destruct (default false _); [lia|].
    cbn [Pinger.m_uNextSeq Pinger.m_stPingWindow]. rewrite length_insert. lia.
  - cbn. lia.
Qed.

Lemma run_seq cs p (n : Z) :
  0 <= Pinger.m_uNextSeq p <= n ->
  Z.of_nat (length (Pinger.m_stPingWindow p)) <= Pinger.m_uNextSeq p ->
  n + Z.of_nat (length cs) < 2 ^ 32 ->
  is_u32 (Pinger.m_uNextSeq (Pinger.run p cs))
  /\ Z.of_nat (length (Pinger.m_stPingWindow (Pinger.run p cs)))
     <= Pinger.m_uNextSeq (Pinger.run p cs).
Proof.
  revert p n. induction cs as [|c cs IH]; intros p n Hseq Hlen Hfit.
  - cbn in *. unfold is_u32. lia.
  - cbn [length] in Hfit.
    destruct (step_seq p c n Hseq Hlen) as [Hseq' Hlen']; [lia|].
    cbn. apply (IH _ (n + 1)); [assumption..|lia].
Qed.

(** Read on the numbers themselves: within the first 2^32 calls on an
    estimator, a packet whose Seq is below [NextSeq - size] or above the
    Seq sent last changes nothing. *)
Corollary Recv_ignores_numeric (interval timeout now : Z)
    (cs : list Pinger.call) (packet : PingPacket) :
  Z.of_nat (length cs) < 2 ^ 32 ->
  is_u32 (Seq packet) ->
  let p := Pinger.run (Pinger.create interval timeout) cs in
  Seq packet
    < Pinger.m_uNextSeq p - Z.of_nat (length (Pinger.m_stPingWindow p))
  \/ Pinger.m_uNextSeq p - 1 < Seq packet ->
  Pinger.Recv now packet p = p.
Proof.
  intros Hcs Hseq p Hstale.
  destruct (run_seq cs (Pinger.create interval timeout) 0) as [Hnext Hlen];
    [cbn; lia..|]. fold p in Hnext, Hlen. unfold is_u32 in *.
  apply Recv_outside; [lia|exact Hseq|].
  destruct Hstale as [Hold|Hnew].
  - apply older_outside; [exact Hnext|lia|exact Hold].
  - now apply newer_outside.
Qed.

(** * Properties of the client *)

Section ClientFacts.

Context {codec : MdrCodec}.

(** Every handler but a successful connect callback leaves a client that
    is not connected not connected. *)
Lemma handle_stays_disconnected c e :
  Client.m_iTcpChannelState c <> Client.STATE_TCP_CONNECTED ->
  Client.stays_disconnected e = true ->
  Client.m_iTcpChannelState (fst (Client.handle c e))
  <> Client.STATE_TCP_CONNECTED.
Proof.
  intros Hc He. destruct e as [now|err now|err now|data now|now|from data now|err];
    cbn [Client.handle].
  - unfold Client.OnTick.
    destruct (Pinger.Update now (Client.m_stTcpPinger c)) as [tcpPacket tcpPinger].
    destruct (Pinger.Update now (Client.m_stUdpPinger c)) as [udpPacket udpPinger].
    destruct (Client.m_ullNextPintStatTime c <=? now); cbn [fst Client.m_iTcpChannelState];
      destruct (_ && _); congruence.
  - unfold Client.OnTcpConnected. cbn in He.
    destruct (err =? 0); [discriminate|]. cbn. congruence.
  - cbn. congruence.
  - unfold Client.OnTcpData. destruct (ReadStruct data); cbn; congruence.
  - cbn. congruence.
  - unfold Client.OnUdpData. destruct (ReadStruct data); cbn; congruence.
  - cbn. congruence.
Qed.

(** A client that is not connected writes nothing on its TCP socket. *)
Lemma handle_writes_nothing c e :
  Client.m_iTcpChannelState c <> Client.STATE_TCP_CONNECTED ->
  Forall (fun x => Client.is_tcp_write x = false) (snd (Client.handle c e)).
Proof.
  intros Hc. destruct e as [now|err now|err now|data now|now|from data now|err];
    cbn [Client.handle].
  - unfold Client.OnTick.
    destruct (Pinger.Update now (Client.m_stTcpPinger c)) as [tcpPacket tcpPinger].
    destruct (Pinger.Update now (Client.m_stUdpPinger c)) as [udpPacket udpPinger].
    assert (Hstate : Client.state_eqb
              (if Client.state_eqb (Client.m_iTcpChannelState c)
                    Client.STATE_TCP_NOT_CONNECT
                  && (Client.m_ullNextTryConnectTime c <=? now)
               then Client.STATE_TCP_CONNECTING
               else Client.m_iTcpChannelState c)
              Client.STATE_TCP_CONNECTED = false).
    { destruct (_ && _); [reflexivity|].
      destruct (Client.m_iTcpChannelState c); [reflexivity..|congruence]. }
    rewrite Hstate.
    destruct (Client.m_ullNextPintStatTime c <=? now); cbn [snd];
      unfold Client.report; destruct (_ && _), tcpPacket, udpPacket,
        (Client.m_pSink c); repeat constructor.
  - unfold Client.OnTcpConnected. destruct (err =? 0); repeat constructor.
  - repeat constructor.
  - unfold Client.OnTcpData. destruct (ReadStruct data); repeat constructor.
  - repeat constructor.
  - unfold Client.OnUdpData. destruct (ReadStruct data); repeat constructor.
  - repeat constructor.
Qed.

Lemma run_disconnected es c :
  Client.m_iTcpChannelState c <> Client.STATE_TCP_CONNECTED ->
  forallb Client.stays_disconnected es = true ->
  Client.m_iTcpChannelState (fst (Client.run c es))
  <> Client.STATE_TCP_CONNECTED
  /\ Forall (fun x => Client.is_tcp_write x = false) (snd (Client.run c es)).
Proof.
  revert c. induction es as [|e es IH]; intros c Hc Hes.
  - split; [exact Hc|constructor].
  - cbn [forallb] in Hes. apply andb_prop in Hes as [He Hes].
    pose proof (handle_stays_disconnected c e Hc He) as Hc1.
    pose proof (handle_writes_nothing c e Hc) as Hw1.
    cbn [Client.run]. destruct (Client.handle c e) as [c1 out1].
    cbn [fst snd] in *. destruct (IH c1 Hc1 Hes) as [Hc2 Hw2].
    destruct (Client.run c1 es) as [c2 out2]. cbn [fst snd] in *.
    split; [exact Hc2|]. apply Forall_app. now split.
Qed.

(** What one tick does to the TCP estimator and its report, whatever the
    channel state. *)
Lemma OnTick_tcp_pinger now c :
  let updated := snd (Pinger.Update now (Client.m_stTcpPinger c)) in
  Client.m_stTcpPinger (fst (Client.OnTick now c))
  = (if Client.m_ullNextPintStatTime c <=? now
     then Pinger.Reset updated else updated)
  /\ (Client.m_ullNextPintStatTime c <= now ->
      In (Client.LogPing Client.TCP (Pinger.m_uPacketLost updated)
            (wrap32 (Pinger.m_uPacketLost updated
                     + Pinger.m_uAvailablePacket updated))
            (if Pinger.m_uAvailablePacket updated =? 0 then 0
             else Pinger.m_uLatencyTotal updated
                  / Pinger.m_uAvailablePacket updated)
            (if Pinger.m_uAvailablePacket updated =? 0 then 0
             else Pinger.m_uMaxLatency updated)
            (if Pinger.m_uAvailablePacket updated =? 0 then 0
             else Pinger.m_uMinLatency updated))
         (snd (Client.OnTick now c))).
Proof.
  cbn zeta. unfold Client.OnTick.
  destruct (Pinger.Update now (Client.m_stTcpPinger c)) as [tcpPacket tcpPinger].
  destruct (Pinger.Update now (Client.m_stUdpPinger c)) as [udpPacket udpPinger].
  cbn [snd].
  destruct (Z.leb_spec (Client.m_ullNextPintStatTime c) now) as [Hdue|Hnot];
    cbn [fst snd Client.m_stTcpPinger]; (split; [reflexivity|]); [|lia].
  intros _. apply in_or_app. right. apply in_or_app. left.
  unfold Client.report. cbn. now left.
Qed.

Lemma Update_due now p :
  Pinger.m_ullNextSendTime p <= now ->
  fst (Pinger.Update now p)
  = Some {| Seq := Pinger.m_uNextSeq p; SendTime := now |}
  /\ Pinger.m_uTotalPacket (snd (Pinger.Update now p))
     = wrap32 (Pinger.m_uTotalPacket p + 1).
Proof.
  intros Hdue. unfold Pinger.Update.
  destruct (Z.leb_spec (Pinger.m_ullNextSendTime p) now); [|lia].
  destruct (Pinger.evict _ _ _ _). now split.
Qed.

(** C9: through any run of events without a successful connect, a client
    that is not connected stays so and writes nothing on its TCP socket;
    yet each tick passes the clock to [Update] on the TCP estimator, a due
    probe is emitted and raises its total by one, the loop of [Update]
    scores the unacknowledged entries it evicts as lost, and the report of
    a due reporting tick carries the lost count of that estimator. *)
Theorem disconnected_probes_counted (c : Client.t) (es : list Client.event)
    (now : Tick) :
  Client.m_iTcpChannelState c <> Client.STATE_TCP_CONNECTED ->
  forallb Client.stays_disconnected es = true ->
  let c1 := fst (Client.run c es) in
  let tcp := Client.m_stTcpPinger c1 in
  let updated := snd (Pinger.Update now tcp) in
  Forall (fun x => Client.is_tcp_write x = false) (snd (Client.run c es))
  /\ Forall (fun x => Client.is_tcp_write x = false) (snd (Client.OnTick now c1))
  /\ Client.m_stTcpPinger (fst (Client.OnTick now c1))
     = (if Client.m_ullNextPintStatTime c1 <=? now
        then Pinger.Reset updated else updated)
  /\ (Pinger.m_ullNextSendTime tcp <= now ->
      fst (Pinger.Update now tcp)
      = Some {| Seq := Pinger.m_uNextSeq tcp; SendTime := now |}
      /\ Pinger.m_uTotalPacket updated = wrap32 (Pinger.m_uTotalPacket tcp + 1)
      /\ Pinger.m_uPacketLost updated
         = snd (Pinger.evict (Pinger.m_uInterval tcp) (Pinger.m_uTimeout tcp)
                  (Pinger.m_stPingWindow tcp) (Pinger.m_uPacketLost tcp)))
  /\ (Client.m_ullNextPintStatTime c1 <= now ->
      exists total avg max min,
        In (Client.LogPing Client.TCP (Pinger.m_uPacketLost updated)
              total avg max min)
           (snd (Client.OnTick now c1))).
Proof.
  intros Hc Hes c1 tcp updated.
  destruct (run_disconnected es c Hc Hes) as [Hc1 Hw]. fold c1 in Hc1.
  destruct (OnTick_tcp_pinger now c1) as [Hp Hr]. cbn zeta in Hp, Hr.
  split; [exact Hw|]. split; [exact (handle_writes_nothing c1 (Client.EvTick now) Hc1)|].
  split; [exact Hp|]. split.
  - intros Hdue. destruct (Update_due now tcp Hdue) as [Hs Ht].
    split; [exact Hs|]. split; [exact Ht|].
    subst updated. unfold Pinger.Update.
    destruct (Z.leb_spec (Pinger.m_ullNextSendTime tcp) now); [|lia].
    destruct (Pinger.evict _ _ _ _). reflexivity.
  - intros Hdue. do 4 eexists. exact (Hr Hdue).
Qed.

(** C10: the sender of a datagram has no part in what [OnUdpData] does:
    two datagrams with the same payload have the same effect whatever
    their senders, and a payload that decodes to a packet reaches [Recv]
    of the UDP estimator without the sender being compared to the server
    endpoint. *)
Theorem OnUdpData_any_sender (from1 from2 : EndPoint) (data : BytesView)
    (now : Tick) (c : Client.t) :
  Client.OnUdpData from1 data now c = Client.OnUdpData from2 data now c
  /\ (forall packet, ReadStruct data = Some packet ->
        Client.m_stUdpPinger (fst (Client.OnUdpData from1 data now c))
        = Pinger.Recv now packet (Client.m_stUdpPinger c)).
Proof.
  split; [reflexivity|]. intros packet Hdecode.
  unfold Client.OnUdpData. rewrite Hdecode. reflexivity.
Qed.

(** The two sibling failure paths: a socket error and a remote EOF put a
    newly created socket, with its callbacks bound, in the place of the
    old one, go to not-connected and set the retry time 10 s ahead. *)
Lemma error_and_eof_recreate (c : Client.t) (err : Z) (now : Tick) :
  (Client.m_stTcpSocket c < Client.m_uNextSocket c)%nat ->
  let fresh := Client.m_uNextSocket c in
  fresh <> Client.m_stTcpSocket c
  /\ Client.OnTcpError err now c
     = (fst (Client.recreate_tcp now c),
        [Client.LogError "Tcp socket error" err; Client.TcpCreate fresh;
         Client.TcpBindEvent fresh])
  /\ Client.OnTcpDataEof now c
     = (fst (Client.recreate_tcp now c),
        [Client.LogError "Tcp socket: remote EOF" 0;
         Client.TcpClose (Client.m_stTcpSocket c); Client.TcpCreate fresh;
         Client.TcpBindEvent fresh])
  /\ Client.m_stTcpSocket (fst (Client.recreate_tcp now c)) = fresh
  /\ Client.m_iTcpChannelState (fst (Client.recreate_tcp now c))
     = Client.STATE_TCP_NOT_CONNECT
  /\ Client.m_ullNextTryConnectTime (fst (Client.recreate_tcp now c))
     = wrap64 (now + 10 * 1000).
Proof.
  intros Hfresh fresh. subst fresh. repeat split; try reflexivity.
  apply not_eq_sym. apply Nat.lt_neq. exact Hfresh.
Qed.

(** C3 at a failed connect: the handler goes to not-connected and sets the
    retry time 10 s ahead, but creates no socket and binds no callback; the
    member still holds the socket whose connect failed, and the first tick
    at or after the retry time calls [Connect] on that same socket. *)
Theorem connect_failure_keeps_socket (c : Client.t) (err : Z) (now : Tick) :
  err <> 0 ->
  let r := Client.OnTcpConnected err now c in
  Client.m_stTcpSocket (fst r) = Client.m_stTcpSocket c
  /\ Client.m_uNextSocket (fst r) = Client.m_uNextSocket c
  /\ snd r = [Client.LogError "Connect failed" err]
  /\ Client.m_iTcpChannelState (fst r) = Client.STATE_TCP_NOT_CONNECT
  /\ Client.m_ullNextTryConnectTime (fst r) = wrap64 (now + 10 * 1000)
  /\ (forall later, wrap64 (now + 10 * 1000) <= later ->
        In (Client.TcpConnect (Client.m_stTcpSocket c)
              (Client.m_stServerEndPoint c))
           (snd (Client.OnTick later (fst r)))).
Proof.
  intros Herr r. subst r. unfold Client.OnTcpConnected.
  destruct (Z.eqb_spec err 0) as [|_]; [contradiction|]. cbn [fst snd].
  repeat split; try reflexivity.
  intros later Hlater. unfold Client.OnTick.
  cbn [Client.m_iTcpChannelState Client.m_ullNextTryConnectTime
       Client.m_stTcpSocket Client.m_stServerEndPoint Client.m_stTcpPinger
       Client.m_stUdpPinger Client.m_ullNextPintStatTime Client.state_eqb].
  destruct (Z.leb_spec (wrap64 (now + 10 * 1000)) later); [|lia].
  destruct (Pinger.Update later (Client.m_stTcpPinger c)) as [tcpPacket tcpPinger].
  destruct (Pinger.Update later (Client.m_stUdpPinger c)) as [udpPacket udpPinger].
  cbn [andb]. destruct (Client.m_ullNextPintStatTime c <=? later); cbn [snd];
    now left.
Qed.

End ClientFacts.

Lemma disconnected_probes_counted_witness :
  let r := Client.run (codec := fixed_codec) client0 minute_offline in
  forallb Client.stays_disconnected minute_offline = true
  /\ Forall (fun x => Client.is_tcp_write x = false) (snd r)
  /\ filter (fun x => Client.is_tcp_report x) (snd r)
     = [Client.LogPing Client.TCP 0 0 0 0 0;
        Client.LogPing Client.TCP 50 50 0 0 0].
Proof.
  assert (Hes : forallb Client.stays_disconnected minute_offline = true)
    by (vm_compute; reflexivity).
  split; [exact Hes|]. split.
  - apply (disconnected_probes_counted (codec := fixed_codec) client0
             minute_offline 0); [discriminate|exact Hes].
  - vm_compute. reflexivity.
Defined.

Lemma OnUdpData_any_sender_witness :
  let codec := fixed_codec in
  let c := fst (Client.run client0 [Client.EvTick 0; Client.EvTick 100]) in
  let data := WriteStruct {| Seq := 1; SendTime := 100 |} in
  stranger <> Client.m_stServerEndPoint c
  /\ ReadStruct data = Some {| Seq := 1; SendTime := 100 |}
  /\ Pinger.m_uAvailablePacket (Client.m_stUdpPinger c) = 0
  /\ Pinger.m_uAvailablePacket
       (Client.m_stUdpPinger (fst (Client.OnUdpData stranger data 150 c))) = 1.
Proof.
  cbn zeta. split; [discriminate|]. split; [reflexivity|]. split; [reflexivity|].
  rewrite (proj2 (OnUdpData_any_sender (codec := fixed_codec) stranger server
                    (WriteStruct (MdrCodec := fixed_codec)
                       {| Seq := 1; SendTime := 100 |}) 150
                    (fst (Client.run (codec := fixed_codec) client0
                            [Client.EvTick 0; Client.EvTick 100])))
             {| Seq := 1; SendTime := 100 |} eq_refl).
  reflexivity.
Defined.

Lemma connect_failure_keeps_socket_witness :
  let codec := fixed_codec in
  let c := fst (Client.run client0 [Client.EvTick 0]) in
  let c' := fst (Client.OnTcpConnected (-111) 50 c) in
  -111 <> 0
  /\ Client.m_iTcpChannelState c = Client.STATE_TCP_CONNECTING
  /\ Client.m_stTcpSocket c' = Client.m_stTcpSocket c
  /\ In (Client.TcpConnect (Client.m_stTcpSocket c) server)
        (snd (Client.OnTick 10100 c')).
Proof.
  cbn zeta.
  pose proof (connect_failure_keeps_socket (codec := fixed_codec)
                (fst (Client.run (codec := fixed_codec) client0 [Client.EvTick 0]))
                (-111) 50 ltac:(discriminate)) as H.
  cbn zeta in H. destruct H as (Hsock & _ & _ & _ & _ & Hretry).
  split; [discriminate|]. split; [reflexivity|]. split; [exact Hsock|].
  apply Hretry. vm_compute. discriminate.
Defined.

(** * Properties of the server *)

(** The sessions after a tick are the live ones before it, in order; the
    idle ones among them are expired in place. *)
Lemma OnTick_live now sessions :
  Server.OnTick now sessions
  = map (fun s => if wrap64 (Server.LastAlive s + 60 * 1000) <=? now
                  then Server.expire s else s)
        (Server.live sessions).
Proof.
  unfold Server.live.
  induction sessions as [|s sessions IH]; [reflexivity|].
  cbn [Server.OnTick]. rewrite filter_cons.
  destruct (Server.Dead s) eqn:Hdead.
  - rewrite decide_False by discriminate. exact IH.
  - rewrite decide_True by reflexivity. cbn [map]. rewrite IH.
    destruct (_ <=? _); reflexivity.
Qed.

Lemma OnTick_peers now sessions :
  Server.peers (Server.OnTick now sessions)
  = Server.peers (Server.live sessions).
Proof.
  rewrite OnTick_live. unfold Server.peers. rewrite map_map.
  apply map_ext. intros s. destruct (_ <=? _); reflexivity.
Qed.

Lemma dead_not_among_live s sessions :
  NoDup (Server.peers sessions) -> In s sessions -> Server.Dead s = true ->
  ~ In (Server.Peer (Server.Socket s)) (Server.peers (Server.live sessions)).
Proof.
  unfold Server.live.
  induction sessions as [|x sessions IH]; intros Hnodup Hin Hdead; [easy|].
  cbn [Server.peers map] in Hnodup. apply NoDup_cons in Hnodup as [Hx Hnodup].
  assert (Hsub : forall peer, In peer (Server.peers
                   (filter (fun s => Server.Dead s = false) sessions)) ->
                 In peer (Server.peers sessions)).
  { intros peer. unfold Server.peers. rewrite !in_map_iff.
    intros (y & Hy & Hin'). exists y. split; [exact Hy|].
    apply list_elem_of_In in Hin'. apply list_elem_of_filter in Hin' as [_ Hin'].
    now apply list_elem_of_In. }
  rewrite filter_cons. destruct Hin as [->|Hin].
  - rewrite decide_False by congruence.
    intros Habs. apply Hx. apply list_elem_of_In. now apply Hsub.
  - destruct (decide (Server.Dead x = false)); [|now apply IH].
    cbn [Server.peers map]. intros [Heq|Habs]; [|now apply IH in Habs].
    apply Hx. rewrite Heq. apply list_elem_of_In.
    unfold Server.peers. apply in_map_iff. now exists s.
Qed.

Lemma expired_in_OnTick now s sessions :
  In s sessions -> Server.Dead s = false ->
  wrap64 (Server.LastAlive s + 60 * 1000) <= now ->
  In (Server.expire s) (Server.OnTick now sessions).
Proof.
  intros Hin Hlive Hidle. rewrite OnTick_live. apply in_map_iff.
  exists s. split.
  - destruct (Z.leb_spec (wrap64 (Server.LastAlive s + 60 * 1000)) now);
      [reflexivity|lia].
  - apply list_elem_of_In. apply list_elem_of_filter. split; [exact Hlive|].
    now apply list_elem_of_In.
Qed.

Lemma OnTick_NoDup now sessions :
  NoDup (Server.peers sessions) ->
  NoDup (Server.peers (Server.OnTick now sessions)).
Proof.
  rewrite OnTick_peers. unfold Server.live.
  induction sessions as [|s sessions IH]; intros Hnodup; [constructor|].
  cbn [Server.peers map] in Hnodup. apply NoDup_cons in Hnodup as [Hs Hnodup].
  rewrite filter_cons. destruct (decide (Server.Dead s = false)); [|now apply IH].
  cbn [Server.peers map]. apply NoDup_cons. split; [|now apply IH].
  intros Habs. apply Hs. apply list_elem_of_In. apply list_elem_of_In in Habs.
  unfold Server.peers in *. apply in_map_iff in Habs as (y & Hy & Hin).
  apply in_map_iff. exists y. split; [exact Hy|].
  apply list_elem_of_In in Hin. apply list_elem_of_filter in Hin as [_ Hin].
  now apply list_elem_of_In.
Qed.

(** C5: in one tick every session that is already dead leaves the
    registry; a live session whose [LastAlive + 60000] is at most the clock
    is closed and marked dead but is still in the registry after that
    tick, and it is the next tick that removes it. *)
Theorem OnTick_two_passes (now later : Tick) (s : Server.Session)
    (sessions : list Server.Session) :
  NoDup (Server.peers sessions) -> In s sessions ->
  0 <= Server.LastAlive s -> now < 2 ^ 64 ->
  (Server.Dead s = true ->
   ~ In (Server.Peer (Server.Socket s))
        (Server.peers (Server.OnTick now sessions)))
  /\ (Server.Dead s = false -> Server.LastAlive s + 60 * 1000 <= now ->
      let s' := Server.expire s in
      Server.Closed (Server.Socket s') = true /\ Server.Dead s' = true
      /\ In s' (Server.OnTick now sessions)
      /\ ~ In (Server.Peer (Server.Socket s))
            (Server.peers (Server.OnTick later (Server.OnTick now sessions)))).
Proof.
  intros Hnodup Hin Halive Hnow. split.
  - intros Hdead. rewrite OnTick_peers. now apply dead_not_among_live.
  - intros Hlive Hidle s'.
    assert (Hin' : In s' (Server.OnTick now sessions)).
    { apply expired_in_OnTick; [assumption..|].
      rewrite wrap64_small by (unfold is_u64; lia). exact Hidle. }
    split; [reflexivity|]. split; [reflexivity|]. split; [exact Hin'|].
    rewrite OnTick_peers.
    apply (dead_not_among_live s' (Server.OnTick now sessions));
      [now apply OnTick_NoDup|exact Hin'|reflexivity].
Qed.

Lemma OnTick_two_passes_witness :
  let s := Server.mkSession (Server.mkTcpSocket 2 false) 1000 false in
  Server.OnTick 61000 three_sessions
  = [Server.expire s;
     Server.mkSession (Server.mkTcpSocket 3 false) 50000 false]
  /\ Server.OnTick 62000 (Server.OnTick 61000 three_sessions)
     = [Server.mkSession (Server.mkTcpSocket 3 false) 50000 false]
  /\ In (Server.expire s) (Server.OnTick 61000 three_sessions)
  /\ ~ In 2%nat (Server.peers
                   (Server.OnTick 62000 (Server.OnTick 61000 three_sessions))).
Proof.
  split; [reflexivity|]. split; [reflexivity|].
  assert (Hnodup : NoDup (Server.peers three_sessions)).
  { apply (bool_decide_unpack _). vm_compute. reflexivity. }
  destruct (OnTick_two_passes 61000 62000
              (Server.mkSession (Server.mkTcpSocket 2 false) 1000 false)
              three_sessions Hnodup ltac:(cbn; tauto) ltac:(cbn; lia)
              ltac:(lia)) as [_ H].
  destruct (H eq_refl ltac:(cbn; lia)) as (_ & _ & Hin & Hout).
  split; [exact Hin|exact Hout].
Defined.

(** No callback of a session clears its dead flag. *)
Lemma dead_stays_dead (s : Server.Session) (err : Z) (data : BytesView)
    (now : Tick) :
  Server.Dead s = true ->
  Server.Dead (Server.Session_OnTcpError err s) = true
  /\ Server.Dead (fst (Server.Session_OnTcpData data now s)) = true
  /\ Server.Dead (Server.Session_OnTcpDataEof s) = true.
Proof. intros Hdead. repeat split. exact Hdead. Qed.

(** C4, as stated, fails at the error callback: on a session that is hit
    by error -104 the handler marks it dead and calls no [Close()] on its
    socket. *)
Lemma error_callback_calls_no_Close :
  let s := Server.mkSession (Server.mkTcpSocket 2 false) 1000 false in
  Server.Session_OnTcpError (-104) s
  = Server.mkSession (Server.mkTcpSocket 2 false) 1000 true
  /\ Server.Closed (Server.Socket (Server.Session_OnTcpError (-104) s))
     <> true.
Proof. split; [reflexivity|discriminate]. Qed.

(** No handler brings a dead session back: a live session after an event
    was live before it, or is the one just accepted. *)
Lemma handle_no_revival (e : Server.event) (sessions : list Server.Session)
    (x : Server.Session) :
  In x (Server.handle sessions e) -> Server.Dead x = false ->
  (exists s, In s sessions /\ Server.Dead s = false
             /\ Server.Peer (Server.Socket s) = Server.Peer (Server.Socket x))
  \/ (exists socket now, e = Server.EvConnection socket now
                         /\ Server.Socket x = socket).
Proof.
  intros Hin Hlive.
  destruct e as [now|socket now|peer err|peer data now|peer]; cbn [Server.handle] in Hin.
  - left. rewrite OnTick_live in Hin. apply in_map_iff in Hin as (s & Hx & Hs).
    apply list_elem_of_In in Hs. apply list_elem_of_filter in Hs as [Hd Hs].
    exists s. split; [now apply list_elem_of_In|]. split; [exact Hd|].
    subst x. destruct (_ <=? _); reflexivity.
  - unfold Server.OnTcpConnection in Hin. apply in_app_or in Hin as [Hin|[<-|[]]].
    + left. exists x. now repeat split.
    + right. now exists socket, now.
  - left. unfold Server.on_session in Hin.
    apply in_map_iff in Hin as (s & Hx & Hs). exists s.
    destruct (_ =? _)%nat; subst x; [discriminate|now repeat split].
  - left. unfold Server.on_session in Hin.
    apply in_map_iff in Hin as (s & Hx & Hs). exists s.
    destruct (_ =? _)%nat; subst x; now repeat split.
  - left. unfold Server.on_session in Hin.
    apply in_map_iff in Hin as (s & Hx & Hs). exists s.
    destruct (_ =? _)%nat; subst x; [discriminate|now repeat split].
Qed.

(** C4, as amended: the EOF callback calls [Close()] on the session's
    socket and marks the session dead; the error callback marks it dead
    and calls no [Close()], leaving the socket object as it was.  Either
    way the session is terminal: no callback of a session clears its dead
    flag, no handler of the server brings a dead session back, and the
    next tick drops a dead session from the registry. *)
Theorem session_teardown (err : Z) (data : BytesView) (now later : Tick)
    (s : Server.Session) (sessions : list Server.Session) :
  Server.Session_OnTcpDataEof s
  = {| Server.Socket := Server.Close (Server.Socket s);
       Server.LastAlive := Server.LastAlive s; Server.Dead := true |}
  /\ Server.Closed (Server.Socket (Server.Session_OnTcpDataEof s)) = true
  /\ Server.Session_OnTcpError err s
     = {| Server.Socket := Server.Socket s;
          Server.LastAlive := Server.LastAlive s; Server.Dead := true |}
  /\ (Server.Dead s = true ->
      Server.Dead (Server.Session_OnTcpError err s) = true
      /\ Server.Dead (fst (Server.Session_OnTcpData data now s)) = true
      /\ Server.Dead (Server.Session_OnTcpDataEof s) = true)
  /\ (forall e x,
        In x (Server.handle sessions e) -> Server.Dead x = false ->
        (exists s0, In s0 sessions /\ Server.Dead s0 = false
                    /\ Server.Peer (Server.Socket s0)
                       = Server.Peer (Server.Socket x))
        \/ (exists socket t, e = Server.EvConnection socket t
                             /\ Server.Socket x = socket))
  /\ (NoDup (Server.peers sessions) -> In s sessions ->
      Server.Dead s = true ->
      ~ In (Server.Peer (Server.Socket s))
           (Server.peers (Server.OnTick later sessions))).
Proof.
  split; [reflexivity|]. split; [reflexivity|]. split; [reflexivity|].
  split; [apply dead_stays_dead|].
  split; [intros e x; apply handle_no_revival|].
  intros Hnodup Hin Hdead. rewrite OnTick_peers.
  now apply dead_not_among_live.
Qed.

Lemma session_teardown_witness :
  let killed := Server.Session_OnTcpError (-104)
                  (Server.mkSession (Server.mkTcpSocket 9 false) 60500 false) in
  let sessions := three_sessions ++ [killed] in
  Server.Dead killed = true
  /\ Server.Dead (fst (Server.Session_OnTcpData [1; 2; 3] 60600 killed)) = true
  /\ ~ In 9%nat (Server.peers (Server.OnTick 61000 sessions)).
Proof.
  cbn zeta.
  destruct (session_teardown (-104) [1; 2; 3] 60600 61000
              (Server.Session_OnTcpError (-104)
                 (Server.mkSession (Server.mkTcpSocket 9 false) 60500 false))
              (three_sessions
               ++ [Server.Session_OnTcpError (-104)
                     (Server.mkSession (Server.mkTcpSocket 9 false)
                        60500 false)]))
    as (_ & _ & _ & Hstay & _ & Hgone).
  split; [reflexivity|]. split; [exact (proj1 (proj2 (Hstay eq_refl)))|].
  apply Hgone; [|vm_compute; auto 10|reflexivity].
  apply (bool_decide_unpack _). vm_compute. reflexivity.
Defined.

(** * Further properties of the estimator *)

Lemma Recv_marks_slot (now : Tick) (p : Pinger.t) (packet : PingPacket)
    (i : nat) :
  Z.of_nat (length (Pinger.m_stPingWindow p)) < 2 ^ 32 ->
  Pinger.m_stPingWindow p !! i = Some false ->
  Seq packet = Pinger.window_seq p i ->
  let elapsed := wrap32 (wrap64 (now - SendTime packet)) in
  let q := Pinger.Recv now packet p in
  Pinger.m_stPingWindow q = <[i := true]> (Pinger.m_stPingWindow p)
  /\ Pinger.m_uAvailablePacket q = wrap32 (Pinger.m_uAvailablePacket p + 1)
  /\ Pinger.m_uLatencyTotal q = wrap32 (Pinger.m_uLatencyTotal p + elapsed)
  /\ Pinger.m_uMaxLatency q = Z.max (Pinger.m_uMaxLatency p) elapsed
  /\ Pinger.m_uMinLatency q = Z.min (Pinger.m_uMinLatency p) elapsed
  /\ Pinger.m_uTotalPacket q = Pinger.m_uTotalPacket p
  /\ Pinger.m_uPacketLost q = Pinger.m_uPacketLost p
  /\ Pinger.m_uNextSeq q = Pinger.m_uNextSeq p
  /\ Pinger.m_ullNextSendTime q = Pinger.m_ullNextSendTime p.
Proof.
  intros Hsize Hslot Hseq elapsed q.
  pose proof (lookup_lt_Some _ _ _ Hslot) as Hi.
  assert (Hd : wrap32 (Pinger.m_uNextSeq p - Seq packet)
               = Z.of_nat (length (Pinger.m_stPingWindow p)) - Z.of_nat i).
  { rewrite Hseq. unfold Pinger.window_seq, wrap32.
    rewrite Zminus_mod_idemp_r.
    replace (Pinger.m_uNextSeq p
             - (Pinger.m_uNextSeq p
                - Z.of_nat (length (Pinger.m_stPingWindow p)) + Z.of_nat i))
      with (Z.of_nat (length (Pinger.m_stPingWindow p)) - Z.of_nat i) by lia.
    apply Z.mod_small. lia. }
  destruct (offset_in_window p packet) as [_ Hoff]; [lia|]. cbn zeta in Hoff.
  rewrite Hd in Hoff. specialize (Hoff ltac:(lia)).
  subst q. unfold Pinger.Recv. rewrite Hoff.
  destruct (Z.leb_spec (Z.of_nat (length (Pinger.m_stPingWindow p)))
              (Z.of_nat (length (Pinger.m_stPingWindow p))
               - (Z.of_nat (length (Pinger.m_stPingWindow p)) - Z.of_nat i)));
    [lia|].
  replace (Z.to_nat (Z.of_nat (length (Pinger.m_stPingWindow p))
                     - (Z.of_nat (length (Pinger.m_stPingWindow p))
                        - Z.of_nat i))) with i by lia.
  rewrite Hslot. cbn. repeat split; reflexivity.
Qed.

(** A packet carrying the Seq of an unacknowledged window slot is
    accepted: that slot, and no other, is marked, the acknowledged count
    goes up by one and the latency enters the total and the extremes; the
    send side of the estimator is not touched. *)
Theorem Recv_accepts (now : Tick) (p : Pinger.t) (packet : PingPacket)
    (i : nat) :
  Z.of_nat (length (Pinger.m_stPingWindow p)) < 2 ^ 32 ->
  Pinger.m_stPingWindow p !! i = Some false ->
  Seq packet = Pinger.window_seq p i ->
  let elapsed := wrap32 (wrap64 (now - SendTime packet)) in
  let q := Pinger.Recv now packet p in
  Pinger.m_stPingWindow q = <[i := true]> (Pinger.m_stPingWindow p)
  /\ Pinger.m_uAvailablePacket q = wrap32 (Pinger.m_uAvailablePacket p + 1)
  /\ Pinger.m_uLatencyTotal q = wrap32 (Pinger.m_uLatencyTotal p + elapsed)
  /\ Pinger.m_uMaxLatency q = Z.max (Pinger.m_uMaxLatency p) elapsed
  /\ Pinger.m_uMinLatency q = Z.min (Pinger.m_uMinLatency p) elapsed
  /\ Pinger.m_uTotalPacket q = Pinger.m_uTotalPacket p
  /\ Pinger.m_uPacketLost q = Pinger.m_uPacketLost p
  /\ Pinger.m_uNextSeq q = Pinger.m_uNextSeq p
  /\ Pinger.m_ullNextSendTime q = Pinger.m_ullNextSendTime p.
Proof. apply Recv_marks_slot. Qed.

Lemma Recv_accepts_witness :
  let p := Pinger.run (Pinger.create 1000 5000) five_probes in
  Pinger.m_stPingWindow p !! 3%nat = Some false
  /\ Pinger.window_seq p 3 = 3
  /\ Pinger.m_stPingWindow (Pinger.Recv 3040 {| Seq := 3; SendTime := 3000 |} p)
     = [false; false; true; true; false].
Proof.
  split; [reflexivity|]. split; [reflexivity|].
  exact (proj1 (Recv_accepts 3040
                  (Pinger.run (Pinger.create 1000 5000) five_probes)
                  {| Seq := 3; SendTime := 3000 |} 3
                  ltac:(vm_compute; reflexivity) eq_refl eq_refl)).
Defined.

(** Delivering a packet a second time, at whatever clock value, changes
    nothing more: [Recv] is idempotent in the packet. *)
Theorem Recv_twice (now1 now2 : Tick) (p : Pinger.t) (packet : PingPacket) :
  Pinger.Recv now2 packet (Pinger.Recv now1 packet p)
  = Pinger.Recv now1 packet p.
Proof.
  unfold Pinger.Recv at 2 3.
  destruct (Z.leb_spec (Z.of_nat (length (Pinger.m_stPingWindow p)))
              (Pinger.offset_of p packet)) as [Hout|Hin].
  - unfold Pinger.Recv.
    destruct (Z.leb_spec (Z.of_nat (length (Pinger.m_stPingWindow p)))
                (Pinger.offset_of p packet)); [reflexivity|lia].
  - destruct (default false (Pinger.m_stPingWindow p
                               !! Z.to_nat (Pinger.offset_of p packet))) eqn:Hslot.
    + unfold Pinger.Recv.
      destruct (Z.leb_spec (Z.of_nat (length (Pinger.m_stPingWindow p)))
                  (Pinger.offset_of p packet)); [reflexivity|].
      rewrite Hslot. reflexivity.
    + pose proof (wrap64_range (Z.of_nat (length (Pinger.m_stPingWindow p))
                    - wrap32 (Pinger.m_uNextSeq p - Seq packet))) as [Hoff _].
      fold (Pinger.offset_of p packet) in Hoff.
      unfold Pinger.Recv, Pinger.offset_of.
      cbn [Pinger.m_stPingWindow Pinger.m_uNextSeq]. rewrite length_insert.
      fold (Pinger.offset_of p packet).
      destruct (Z.leb_spec (Z.of_nat (length (Pinger.m_stPingWindow p)))
                  (Pinger.offset_of p packet)); [lia|].
      rewrite list_lookup_insert_eq by lia. reflexivity.
Qed.

(** What one call emits and how it moves the send side. *)
Lemma step_emit p c :
  Pinger.m_uInterval (Pinger.step p c) = Pinger.m_uInterval p
  /\ ((Pinger.emit p c = []
       /\ Pinger.m_uNextSeq (Pinger.step p c) = Pinger.m_uNextSeq p
       /\ (Pinger.is_probe_call c = true ->
           Pinger.m_ullNextSendTime (Pinger.step p c)
           = Pinger.m_ullNextSendTime p))
      \/ (exists now,
            c = Pinger.CallUpdate now /\ Pinger.m_ullNextSendTime p <= now
            /\ Pinger.emit p c
               = [{| Seq := Pinger.m_uNextSeq p; SendTime := now |}]
            /\ Pinger.m_uNextSeq (Pinger.step p c)
               = wrap32 (Pinger.m_uNextSeq p + 1)
            /\ Pinger.m_ullNextSendTime (Pinger.step p c)
               = wrap64 (now + Pinger.m_uInterval p))).
Proof.
  destruct c as [now|now packet|]; cbn [Pinger.step Pinger.emit].
  - unfold Pinger.Update.
    destruct (Z.leb_spec (Pinger.m_ullNextSendTime p) now) as [Hdue|Hnot].
    + destruct (Pinger.evict _ _ _ _). cbn [fst snd]. split; [reflexivity|].
      right. exists now. now repeat split.
    + cbn [fst snd]. split; [reflexivity|]. left. now repeat split.
  - unfold Pinger.Recv. destruct (_ <=? _); [now (split; [|left])|].
    destruct (default false _); now (split; [|left]).
  - split; [reflexivity|]. left. split; [reflexivity|]. split; [reflexivity|].
    discriminate.
Qed.

Lemma sent_seqs (p : Pinger.t) (cs : list Pinger.call) :
  is_u32 (Pinger.m_uNextSeq p) ->
  map Seq (Pinger.sent p cs)
  = map (fun k : nat => wrap32 (Pinger.m_uNextSeq p + Z.of_nat k))
        (seq 0 (length (Pinger.sent p cs)))
  /\ Pinger.m_uNextSeq (Pinger.run p cs)
     = wrap32 (Pinger.m_uNextSeq p + Z.of_nat (length (Pinger.sent p cs))).
Proof.
  revert p. induction cs as [|c cs IH]; intros p Hseq.
  - cbn. split; [reflexivity|]. rewrite Z.add_0_r. symmetry.
    now apply wrap32_small.
  - cbn [Pinger.sent Pinger.run fold_left].
    destruct (step_emit p c) as [_ [(He & Hn & _)|(now & _ & _ & He & Hn & _)]];
      rewrite He.
    + cbn [app]. specialize (IH (Pinger.step p c)). rewrite Hn in IH.
      now apply IH.
    + destruct (IH (Pinger.step p c)) as [IH1 IH2];
        [rewrite Hn; apply wrap32_range|].
      change (Pinger.run (Pinger.step p c) cs)
        with (fold_left Pinger.step cs (Pinger.step p c)) in IH2.
      cbn [app length seq map Seq]. rewrite IH2, IH1, Hn. split.
      * f_equal; [rewrite Z.add_0_r; symmetry; now apply wrap32_small|].
        rewrite <- seq_shift, map_map. apply map_ext. intros k.
        unfold wrap32. rewrite Zplus_mod_idemp_l. f_equal. lia.
      * unfold wrap32. rewrite Zplus_mod_idemp_l. f_equal. lia.
Qed.

(** The Seqs of the probes a run emits count up from [m_uNextSeq] by one,
    modulo 2^32, across [Reset] calls as well; [m_uNextSeq] ends that many
    steps on. *)
Theorem sent_seqs_consecutive (p : Pinger.t) (cs : list Pinger.call) :
  is_u32 (Pinger.m_uNextSeq p) ->
  map Seq (Pinger.sent p cs)
  = map (fun k : nat => wrap32 (Pinger.m_uNextSeq p + Z.of_nat k))
        (seq 0 (length (Pinger.sent p cs)))
  /\ Pinger.m_uNextSeq (Pinger.run p cs)
     = wrap32 (Pinger.m_uNextSeq p + Z.of_nat (length (Pinger.sent p cs))).
Proof. apply sent_seqs. Qed.

Lemma sent_seqs_consecutive_witness :
  let p := Pinger.run (Pinger.create 1000 5000) five_probes in
  let cs := [Pinger.CallReset; Pinger.CallUpdate 4100; Pinger.CallUpdate 4200;
             Pinger.CallUpdate 5100] in
  is_u32 (Pinger.m_uNextSeq p)
  /\ map Seq (Pinger.sent p cs) = [5; 6].
Proof.
  assert (H : is_u32 (Pinger.m_uNextSeq
                        (Pinger.run (Pinger.create 1000 5000) five_probes)))
    by (unfold is_u32; vm_compute; split; [discriminate|reflexivity]).
  split; [exact H|].
  exact (proj1 (sent_seqs_consecutive _
                  [Pinger.CallReset; Pinger.CallUpdate 4100;
                   Pinger.CallUpdate 4200; Pinger.CallUpdate 5100] H)).
Defined.

(** Without a [Reset] in between, two probes are never sent less than one
    interval apart, whatever the clock values the calls carry (below 2^63
    so that the next send time does not wrap), and none is sent before the
    next send time of the starting state. *)
Theorem sends_spaced (p : Pinger.t) (cs : list Pinger.call) :
  is_u32 (Pinger.m_uInterval p) ->
  forallb Pinger.is_probe_call cs = true ->
  Pinger.clocks_below (2 ^ 63) cs ->
  Pinger.spaced (Pinger.m_uInterval p) (map SendTime (Pinger.sent p cs))
  /\ Forall (fun t => Pinger.m_ullNextSendTime p <= t)
       (map SendTime (Pinger.sent p cs)).
Proof.
  unfold is_u32. revert p.
  induction cs as [|c cs IH]; intros p Hi Hprobe Hclock; [now split|].
  cbn [forallb] in Hprobe. apply andb_prop in Hprobe as [Hc Hprobe].
  apply Forall_cons in Hclock as [Hnow Hclock].
  cbn [Pinger.sent].
  destruct (step_emit p c) as [Hint Hcase].
  specialize (IH (Pinger.step p c)). rewrite Hint in IH.
  destruct (IH Hi Hprobe Hclock) as [IH1 IH2].
  destruct Hcase as [(He & _ & Hs)|(now & Hcall & Hdue & He & _ & Hs)];
    rewrite He.
  - cbn [app]. rewrite (Hs Hc) in IH2. now split.
  - subst c. cbn [Pinger.clock] in Hnow. rewrite Hs in IH2.
    rewrite wrap64_small in IH2 by (unfold is_u64; lia).
    cbn [app map SendTime Pinger.spaced]. split; [split; assumption|].
    apply Forall_cons. split; [exact Hdue|].
    eapply Forall_impl; [exact IH2|]. cbn. intros t Ht. lia.
Qed.

Lemma sends_spaced_witness :
  let p := Pinger.create 1000 5000 in
  let cs := [Pinger.CallUpdate 0; Pinger.CallUpdate 400; Pinger.CallUpdate 999;
             Pinger.CallUpdate 1700; Pinger.CallUpdate 2600;
             Pinger.CallUpdate 2700] in
  map SendTime (Pinger.sent p cs) = [0; 1700; 2700]
  /\ Pinger.spaced 1000 (map SendTime (Pinger.sent p cs)).
Proof.
  split; [reflexivity|].
  apply (sends_spaced (Pinger.create 1000 5000)
           [Pinger.CallUpdate 0; Pinger.CallUpdate 400; Pinger.CallUpdate 999;
            Pinger.CallUpdate 1700; Pinger.CallUpdate 2600;
            Pinger.CallUpdate 2700]).
  - unfold is_u32. cbn. lia.
  - reflexivity.
  - unfold Pinger.clocks_below. repeat constructor; cbn; lia.
Defined.

(** On a window that is short beyond its newest entry the loop of
    [Update] runs at most once. *)
Lemma evict_at_most_one interval timeout window lost :
  is_u32 interval -> is_u32 timeout ->
  (let n := Z.of_nat (length window) in
   n <= 1 \/ (n - 1) * interval < timeout) ->
  Pinger.evict interval timeout window lost = (window, lost)
  \/ exists front rest,
       window = front :: rest
       /\ Pinger.evict interval timeout window lost
          = (rest, if front then lost else wrap32 (lost + 1)).
Proof.
  unfold is_u32. intros Hi Ht Hshort. cbn zeta in Hshort.
  destruct window as [|front rest]; [now left|].
  cbn [Pinger.evict].
  assert (Hfit : is_u64 (Z.of_nat (length (front :: rest)) * interval))
    by (unfold is_u64; destruct Hshort; nia).
  rewrite (wrap64_small _ Hfit).
  destruct (timeout <=? _); [|now left].
  right. exists front, rest. split; [reflexivity|].
  destruct rest as [|second rest]; [reflexivity|].
  cbn [Pinger.evict].
  assert (Hfit' : is_u64 (Z.of_nat (length (second :: rest)) * interval))
    by (unfold is_u64 in *; cbn [length] in *; nia).
  rewrite (wrap64_small _ Hfit').
  destruct (Z.leb_spec timeout (Z.of_nat (length (second :: rest)) * interval));
    [cbn [length] in *; lia|reflexivity].
Qed.

(** In every state reached from a fresh estimator an [Update] that sends
    evicts at most one entry, the front one: the window keeps its length
    or grows by one, and the lost count stays or goes up by exactly one
    (when the evicted entry was unacknowledged). *)
Theorem Update_evicts_at_most_one (interval timeout : Z)
    (cs : list Pinger.call) (now : Tick) :
  is_u32 interval -> is_u32 timeout ->
  let p := Pinger.run (Pinger.create interval timeout) cs in
  let q := snd (Pinger.Update now p) in
  Pinger.m_ullNextSendTime p <= now ->
  (Pinger.m_stPingWindow q = Pinger.m_stPingWindow p ++ [false]
   /\ Pinger.m_uPacketLost q = Pinger.m_uPacketLost p)
  \/ (exists front rest,
        Pinger.m_stPingWindow p = front :: rest
        /\ Pinger.m_stPingWindow q = rest ++ [false]
        /\ Pinger.m_uPacketLost q
           = if front then Pinger.m_uPacketLost p
             else wrap32 (Pinger.m_uPacketLost p + 1)).
Proof.
  intros Hi Ht p q Hdue.
  destruct (run_short interval timeout Hi Ht cs (Pinger.create interval timeout))
    as [[Hci Hct] Hshort]; [now split|apply create_short|].
  fold p in Hci, Hct, Hshort. subst q. unfold Pinger.Update.
  destruct (Z.leb_spec (Pinger.m_ullNextSendTime p) now); [|lia].
  rewrite Hci, Hct.
  destruct (evict_at_most_one interval timeout (Pinger.m_stPingWindow p)
              (Pinger.m_uPacketLost p) Hi Ht Hshort)
    as [->|(front & rest & Hw & ->)]; cbn [snd Pinger.m_stPingWindow
                                            Pinger.m_uPacketLost].
  - now left.
  - right. exists front, rest. now repeat split.
Qed.

Lemma Update_evicts_at_most_one_witness :
  let p := Pinger.run (Pinger.create 1000 5000) five_probes in
  let q := snd (Pinger.Update 9000 p) in
  Pinger.m_ullNextSendTime p <= 9000
  /\ Pinger.m_stPingWindow q = [false; true; false; false; false]
  /\ Pinger.m_uPacketLost q = 1.
Proof.
  assert (Hi : is_u32 1000) by (unfold is_u32; lia).
  assert (Ht : is_u32 5000) by (unfold is_u32; lia).
  assert (Hdue : Pinger.m_ullNextSendTime
                   (Pinger.run (Pinger.create 1000 5000) five_probes) <= 9000)
    by (vm_compute; discriminate).
  split; [exact Hdue|].
  destruct (Update_evicts_at_most_one 1000 5000 five_probes 9000 Hi Ht Hdue)
    as [[Hw _]|(front & rest & Hp & Hw & Hl)].
  - vm_compute in Hw. discriminate.
  - vm_compute in Hp. injection Hp as <- <-. split; [exact Hw|exact Hl].
Defined.

(** ** Latency aggregates *)

Lemma elapsed_sum_nonneg cs : 0 <= Pinger.elapsed_sum cs.
Proof.
  induction cs as [|[now|now packet|] cs IH]; cbn [Pinger.elapsed_sum]; try lia.
  pose proof (wrap32_range (wrap64 (now - SendTime packet))) as [H _]. lia.
Qed.

Lemma step_latency_bounds p c (n b : Z) :
  Pinger.latency_bounds p ->
  Pinger.m_uAvailablePacket p <= n -> Pinger.m_uLatencyTotal p <= b ->
  n + 1 < 2 ^ 32 -> b + Pinger.elapsed_sum [c] < 2 ^ 32 ->
  Pinger.latency_bounds (Pinger.step p c)
  /\ Pinger.m_uAvailablePacket (Pinger.step p c) <= n + 1
  /\ Pinger.m_uLatencyTotal (Pinger.step p c) <= b + Pinger.elapsed_sum [c].
Proof.
  intros (Ha & Hl & Hmin & Hmax) Hn Hb Hfit Hbudget.
  pose proof (elapsed_sum_nonneg [c]) as Hpos.
  destruct c as [now|now packet|]; cbn [Pinger.step].
  - unfold Pinger.Update. destruct (_ <=? _);
      [destruct (Pinger.evict _ _ _ _)|]; cbn [snd];
      (split; [now repeat split|cbn in *; lia]).
  - cbn [Pinger.elapsed_sum] in *. rewrite Z.add_0_r in *.
    set (elapsed := wrap32 (wrap64 (now - SendTime packet))) in *.
    unfold Pinger.Recv. fold elapsed.
    destruct (_ <=? _); [split; [now repeat split|lia]|].
    destruct (default false _); [split; [now repeat split|lia]|].
    unfold Pinger.latency_bounds.
    cbn [Pinger.m_uAvailablePacket Pinger.m_uLatencyTotal Pinger.m_uMaxLatency
         Pinger.m_uMinLatency].
    rewrite !wrap32_small by (unfold is_u32; lia).
    assert (Hlo : Z.min (Pinger.m_uMinLatency p) elapsed
                  * Pinger.m_uAvailablePacket p
                  <= Pinger.m_uMinLatency p * Pinger.m_uAvailablePacket p)
      by (apply Z.mul_le_mono_nonneg_r; lia).
    assert (Hhi : Pinger.m_uMaxLatency p * Pinger.m_uAvailablePacket p
                  <= Z.max (Pinger.m_uMaxLatency p) elapsed
                     * Pinger.m_uAvailablePacket p)
      by (apply Z.mul_le_mono_nonneg_r; lia).
    repeat split; lia.
  - unfold Pinger.latency_bounds. cbn in *. lia.
Qed.

Lemma run_latency_bounds cs p (n b : Z) :
  Pinger.latency_bounds p ->
  Pinger.m_uAvailablePacket p <= n -> Pinger.m_uLatencyTotal p <= b ->
  n + Z.of_nat (length cs) < 2 ^ 32 -> b + Pinger.elapsed_sum cs < 2 ^ 32 ->
  Pinger.latency_bounds (Pinger.run p cs).
Proof.
  revert p n b. induction cs as [|c cs IH]; intros p n b Hinv Hn Hb Hfit Hbudget;
    [exact Hinv|].
  cbn [length] in Hfit.
  assert (Hsum : Pinger.elapsed_sum (c :: cs)
                 = Pinger.elapsed_sum [c] + Pinger.elapsed_sum cs)
    by (destruct c; cbn [Pinger.elapsed_sum]; lia).
  pose proof (elapsed_sum_nonneg cs) as Hpos.
  destruct (step_latency_bounds p c n b Hinv Hn Hb) as (Hinv' & Hn' & Hb');
    [lia..|].
  cbn. apply (IH _ (n + 1) (b + Pinger.elapsed_sum [c])); [assumption..|lia|lia].
Qed.

(** As long as neither the acknowledged count nor the latency total can
    have wrapped, the snapshot is coherent: the latency total lies between
    the acknowledged count times the minimum and times the maximum, the
    minimum is at most the maximum, and the integer average the report
    prints lies between the two. *)
Theorem snapshot_latency_coherent (interval timeout : Z)
    (cs : list Pinger.call) :
  Z.of_nat (length cs) < 2 ^ 32 -> Pinger.elapsed_sum cs < 2 ^ 32 ->
  let stat := Pinger.GetStatistic
                (Pinger.run (Pinger.create interval timeout) cs) in
  MinLatency stat * AvailablePacket stat <= LatencyTotal stat
  /\ LatencyTotal stat <= MaxLatency stat * AvailablePacket stat
  /\ MinLatency stat <= MaxLatency stat
  /\ (0 < AvailablePacket stat ->
      MinLatency stat <= LatencyTotal stat / AvailablePacket stat
      /\ LatencyTotal stat / AvailablePacket stat <= MaxLatency stat).
Proof.
  intros Hfit Hbudget stat.
  destruct (run_latency_bounds cs (Pinger.create interval timeout) 0 0)
    as (Ha & Hl & Hmin & Hmax);
    [unfold Pinger.latency_bounds; cbn; lia|cbn; lia|cbn; lia|lia|lia|].
  subst stat. unfold Pinger.GetStatistic.
  cbn [MinLatency MaxLatency AvailablePacket LatencyTotal].
  set (p := Pinger.run (Pinger.create interval timeout) cs) in *.
  destruct (Z.eqb_spec (Pinger.m_uAvailablePacket p) 0) as [Hzero|Hpos].
  - rewrite Hzero in *. repeat split; lia.
  - repeat split; try assumption.
    + nia.
    + apply Z.div_le_lower_bound; lia.
    + apply Z.div_le_upper_bound; lia.
Qed.

Lemma snapshot_latency_coherent_witness :
  let cs := five_probes
            ++ [Pinger.CallRecv 4300 {| Seq := 4; SendTime := 4000 |};
                Pinger.CallRecv 4500 {| Seq := 3; SendTime := 3000 |}] in
  let stat := Pinger.GetStatistic (Pinger.run (Pinger.create 1000 5000) cs) in
  stat = mkPingStatistic 5 0 3 1900 1500 100
  /\ MinLatency stat <= LatencyTotal stat / AvailablePacket stat
  /\ LatencyTotal stat / AvailablePacket stat <= MaxLatency stat.
Proof.
  split; [reflexivity|].
  apply (snapshot_latency_coherent 1000 5000
           (five_probes
            ++ [Pinger.CallRecv 4300 {| Seq := 4; SendTime := 4000 |};
                Pinger.CallRecv 4500 {| Seq := 3; SendTime := 3000 |}]));
    vm_compute; reflexivity.
Defined.

(** ** Probes and their acknowledgments *)

Lemma Update_sends now p :
  Pinger.m_ullNextSendTime p <= now ->
  let rest := fst (Pinger.evict (Pinger.m_uInterval p) (Pinger.m_uTimeout p)
                     (Pinger.m_stPingWindow p) (Pinger.m_uPacketLost p)) in
  fst (Pinger.Update now p)
  = Some {| Seq := Pinger.m_uNextSeq p; SendTime := now |}
  /\ Pinger.m_stPingWindow (snd (Pinger.Update now p)) = rest ++ [false]
  /\ Pinger.m_uNextSeq (snd (Pinger.Update now p))
     = wrap32 (Pinger.m_uNextSeq p + 1)
  /\ Pinger.m_uAvailablePacket (snd (Pinger.Update now p))
     = Pinger.m_uAvailablePacket p
  /\ Pinger.m_uLatencyTotal (snd (Pinger.Update now p))
     = Pinger.m_uLatencyTotal p.
Proof.
  intros Hdue. cbn zeta. unfold Pinger.Update.
  destruct (Z.leb_spec (Pinger.m_ullNextSendTime p) now); [|lia].
  destruct (Pinger.evict _ _ _ _). now repeat split.
Qed.

Lemma Update_then_Recv now now' p :
  is_u32 (Pinger.m_uNextSeq p) ->
  Z.of_nat (length (Pinger.m_stPingWindow p)) + 1 < 2 ^ 32 ->
  Pinger.m_ullNextSendTime p <= now ->
  let packet := {| Seq := Pinger.m_uNextSeq p; SendTime := now |} in
  let sent := snd (Pinger.Update now p) in
  let q := Pinger.Recv now' packet sent in
  let elapsed := wrap32 (wrap64 (now' - now)) in
  Pinger.m_stPingWindow sent !! (length (Pinger.m_stPingWindow sent) - 1)%nat
  = Some false
  /\ Pinger.m_stPingWindow q
     = <[(length (Pinger.m_stPingWindow sent) - 1)%nat := true]>
         (Pinger.m_stPingWindow sent)
  /\ Pinger.m_uAvailablePacket q = wrap32 (Pinger.m_uAvailablePacket p + 1)
  /\ Pinger.m_uLatencyTotal q = wrap32 (Pinger.m_uLatencyTotal p + elapsed).
Proof.
  intros Hseq Hsize Hdue packet sent q elapsed.
  destruct (Update_sends now p Hdue) as (_ & Hw & Hn & Ha & Hl).
  cbn zeta in Hw. fold sent in Hw, Hn, Ha, Hl.
  pose proof (evict_length (Pinger.m_uInterval p) (Pinger.m_uTimeout p)
                (Pinger.m_stPingWindow p) (Pinger.m_uPacketLost p)) as Hle.
  set (rest := fst (Pinger.evict _ _ _ _)) in *.
  assert (Hlen : length (Pinger.m_stPingWindow sent) = S (length rest))
    by (rewrite Hw, length_app; cbn; lia).
  assert (Hslot : Pinger.m_stPingWindow sent
                    !! (length (Pinger.m_stPingWindow sent) - 1)%nat
                  = Some false).
  { rewrite Hlen, Hw. replace (S (length rest) - 1)%nat with (length rest) by lia.
    rewrite lookup_app_r by lia. now rewrite Nat.sub_diag. }
  destruct (Recv_marks_slot now' sent packet
              (length (Pinger.m_stPingWindow sent) - 1)%nat)
    as (Hq1 & Hq2 & Hq3 & _); [lia|exact Hslot| |].
  - unfold Pinger.window_seq. rewrite Hn, Hlen. cbn [Seq packet].
    replace (wrap32 (Pinger.m_uNextSeq p + 1) - Z.of_nat (S (length rest))
             + Z.of_nat (S (length rest) - 1))
      with (wrap32 (Pinger.m_uNextSeq p + 1) - 1) by lia.
    unfold wrap32. rewrite Zminus_mod_idemp_l.
    replace (Pinger.m_uNextSeq p + 1 - 1) with (Pinger.m_uNextSeq p) by lia.
    symmetry. now apply Z.mod_small.
  - cbn zeta in Hq1, Hq2, Hq3. fold q in Hq1, Hq2, Hq3.
    rewrite Ha in Hq2. rewrite Hl in Hq3. now repeat split.
Qed.

(** Round trip of a probe: when the packet an [Update] has just emitted is
    handed back to [Recv], the newest window entry is marked, the
    acknowledged count goes up by one and the latency [now' - now] (in
    32 bits) is added to the total. *)
Theorem probe_round_trip (now now' : Tick) (p : Pinger.t)
    (packet : PingPacket) :
  is_u32 (Pinger.m_uNextSeq p) ->
  Z.of_nat (length (Pinger.m_stPingWindow p)) + 1 < 2 ^ 32 ->
  fst (Pinger.Update now p) = Some packet ->
  let sent := snd (Pinger.Update now p) in
  let q := Pinger.Recv now' packet sent in
  Pinger.m_stPingWindow q
  = <[(length (Pinger.m_stPingWindow sent) - 1)%nat := true]>
      (Pinger.m_stPingWindow sent)
  /\ Pinger.m_uAvailablePacket q = wrap32 (Pinger.m_uAvailablePacket p + 1)
  /\ Pinger.m_uLatencyTotal q
     = wrap32 (Pinger.m_uLatencyTotal p + wrap32 (wrap64 (now' - now))).
Proof.
  intros Hseq Hsize Hsome.
  assert (Hdue : Pinger.m_ullNextSendTime p <= now).
  { unfold Pinger.Update in Hsome.
    destruct (Z.leb_spec (Pinger.m_ullNextSendTime p) now); [assumption|].
    discriminate. }
  destruct (Update_sends now p Hdue) as (Hpk & _). rewrite Hpk in Hsome.
  injection Hsome as <-.
  destruct (Update_then_Recv now now' p Hseq Hsize Hdue) as (_ & H).
  exact H.
Qed.

Lemma probe_round_trip_witness :
  let p := Pinger.run (Pinger.create 1000 5000) five_probes in
  let packet := {| Seq := 5; SendTime := 5000 |} in
  fst (Pinger.Update 5000 p) = Some packet
  /\ Pinger.m_uAvailablePacket
       (Pinger.Recv 5070 packet (snd (Pinger.Update 5000 p))) = 2
  /\ Pinger.m_uLatencyTotal
       (Pinger.Recv 5070 packet (snd (Pinger.Update 5000 p))) = 170.
Proof.
  split; [reflexivity|].
  exact (proj2 (probe_round_trip 5000 5070
                  (Pinger.run (Pinger.create 1000 5000) five_probes)
                  {| Seq := 5; SendTime := 5000 |}
                  ltac:(unfold is_u32; vm_compute; split;
                        [discriminate|reflexivity])
                  ltac:(vm_compute; reflexivity) eq_refl)).
Defined.

Lemma sent_length p cs : (length (Pinger.sent p cs) <= length cs)%nat.
Proof.
  revert p. induction cs as [|c cs IH]; intros p; [reflexivity|].
  cbn [Pinger.sent]. rewrite length_app. specialize (IH (Pinger.step p c)).
  destruct (step_emit p c) as [_ [(He & _)|(now & _ & _ & He & _)]];
    rewrite He; cbn [length]; lia.
Qed.

Lemma run_window_length p cs :
  (length (Pinger.m_stPingWindow (Pinger.run p cs))
   <= length (Pinger.m_stPingWindow p) + length (Pinger.sent p cs))%nat.
Proof.
  revert p. induction cs as [|c cs IH]; intros p; [cbn; lia|].
  cbn [Pinger.sent Pinger.run fold_left]. rewrite length_app.
  specialize (IH (Pinger.step p c)). unfold Pinger.run in IH.
  enough (length (Pinger.m_stPingWindow (Pinger.step p c))
          <= length (Pinger.m_stPingWindow p) + length (Pinger.emit p c))%nat
    by lia.
  clear IH. destruct c as [now|now packet|]; cbn [Pinger.step Pinger.emit].
  - unfold Pinger.Update. destruct (_ <=? _); [|cbn; lia].
    pose proof (evict_length (Pinger.m_uInterval p) (Pinger.m_uTimeout p)
                  (Pinger.m_stPingWindow p) (Pinger.m_uPacketLost p)) as Hle.
    destruct (Pinger.evict _ _ _ _). cbn [fst snd Pinger.m_stPingWindow] in *.
    rewrite length_app. cbn. lia.
  - unfold Pinger.Recv. destruct (_ <=? _); [lia|].
    destruct (default false _); [lia|].
    cbn [Pinger.m_stPingWindow]. rewrite length_insert. lia.
  - cbn. lia.
Qed.

(** [Reset] forgets the probes in flight: a packet whose Seq was issued
    before the reset ([j] sends back, [1 <= j]) is ignored by [Recv]
    after any further calls, so that probe is counted neither as
    acknowledged nor as lost. *)
Theorem Reset_forgets_in_flight (now : Tick) (p : Pinger.t)
    (cs : list Pinger.call) (packet : PingPacket) (j : Z) :
  is_u32 (Pinger.m_uNextSeq p) ->
  1 <= j -> j + Z.of_nat (length cs) < 2 ^ 32 ->
  Seq packet = wrap32 (Pinger.m_uNextSeq p - j) ->
  Pinger.Recv now packet (Pinger.run (Pinger.Reset p) cs)
  = Pinger.run (Pinger.Reset p) cs.
Proof.
  intros Hseq Hj Hfit Hpacket.
  destruct (sent_seqs (Pinger.Reset p) cs Hseq) as [_ Hnext].
  pose proof (run_window_length (Pinger.Reset p) cs) as Hlen.
  pose proof (sent_length (Pinger.Reset p) cs) as Hsent.
  cbn [Pinger.Reset Pinger.m_stPingWindow Pinger.m_uNextSeq length] in Hlen, Hnext.
  set (q := Pinger.run (Pinger.Reset p) cs) in *.
  set (k := length (Pinger.sent (Pinger.Reset p) cs)) in *.
  destruct (offset_in_window q packet) as [Hiff _]; [lia|]. cbn zeta in Hiff.
  assert (Hd : wrap32 (Pinger.m_uNextSeq q - Seq packet) = Z.of_nat k + j).
  { rewrite Hnext, Hpacket. unfold wrap32.
    rewrite Zminus_mod_idemp_l, Zminus_mod_idemp_r.
    replace (Pinger.m_uNextSeq p + Z.of_nat k - (Pinger.m_uNextSeq p - j))
      with (Z.of_nat k + j) by lia.
    apply Z.mod_small. lia. }
  rewrite Hd in Hiff. unfold Pinger.Recv.
  destruct (Z.leb_spec (Z.of_nat (length (Pinger.m_stPingWindow q)))
              (Pinger.offset_of q packet)) as [_|Hin]; [reflexivity|].
  apply Hiff in Hin. lia.
Qed.

Lemma Reset_forgets_in_flight_witness :
  let p := Pinger.run (Pinger.create 1000 5000) five_probes in
  let cs := [Pinger.CallUpdate 4100; Pinger.CallUpdate 5100] in
  let late := {| Seq := 4; SendTime := 4000 |} in
  Pinger.m_stPingWindow p !! 4%nat = Some false
  /\ Seq late = wrap32 (Pinger.m_uNextSeq p - 1)
  /\ Pinger.Recv 5200 late (Pinger.run (Pinger.Reset p) cs)
     = Pinger.run (Pinger.Reset p) cs.
Proof.
  split; [reflexivity|]. split; [reflexivity|].
  apply (Reset_forgets_in_flight 5200
           (Pinger.run (Pinger.create 1000 5000) five_probes)
           [Pinger.CallUpdate 4100; Pinger.CallUpdate 5100]
           {| Seq := 4; SendTime := 4000 |} 1).
  - unfold is_u32. vm_compute. split; [discriminate|reflexivity].
  - lia.
  - cbn. lia.
  - reflexivity.
Defined.

(** * Further properties of the client *)

Section ClientSchedule.

Context {codec : MdrCodec}.

(** What a tick leaves in the members. *)
Lemma OnTick_members now c :
  let c1 := fst (Client.OnTick now c) in
  let connect :=
    Client.state_eqb (Client.m_iTcpChannelState c) Client.STATE_TCP_NOT_CONNECT
    && (Client.m_ullNextTryConnectTime c <=? now) in
  let report := Client.m_ullNextPintStatTime c <=? now in
  Client.m_iTcpChannelState c1
  = (if connect then Client.STATE_TCP_CONNECTING
     else Client.m_iTcpChannelState c)
  /\ Client.m_ullNextTryConnectTime c1 = Client.m_ullNextTryConnectTime c
  /\ Client.m_ullNextPintStatTime c1
     = (if report then wrap64 (now + 60 * 1000)
        else Client.m_ullNextPintStatTime c)
  /\ Client.m_stTcpPinger c1
     = (if report
        then Pinger.Reset (snd (Pinger.Update now (Client.m_stTcpPinger c)))
        else snd (Pinger.Update now (Client.m_stTcpPinger c)))
  /\ Client.m_stUdpPinger c1
     = (if report
        then Pinger.Reset (snd (Pinger.Update now (Client.m_stUdpPinger c)))
        else snd (Pinger.Update now (Client.m_stUdpPinger c)))
  /\ Client.m_stTcpSocket c1 = Client.m_stTcpSocket c
  /\ Client.m_stUdpSocket c1 = Client.m_stUdpSocket c
  /\ Client.m_stServerEndPoint c1 = Client.m_stServerEndPoint c.
Proof.
  cbn zeta. unfold Client.OnTick.
  destruct (Pinger.Update now (Client.m_stTcpPinger c)) as [tcpPacket tcpPinger].
  destruct (Pinger.Update now (Client.m_stUdpPinger c)) as [udpPacket udpPinger].
  destruct (Client.m_ullNextPintStatTime c <=? now); cbn; now repeat split.
Qed.

(** What a tick puts on the sockets. *)
Lemma OnTick_effects now c :
  let out := snd (Client.OnTick now c) in
  List.filter Client.is_tcp_connect out
  = (if Client.state_eqb (Client.m_iTcpChannelState c)
          Client.STATE_TCP_NOT_CONNECT
        && (Client.m_ullNextTryConnectTime c <=? now)
     then [Client.TcpConnect (Client.m_stTcpSocket c)
             (Client.m_stServerEndPoint c)]
     else [])
  /\ List.filter Client.is_tcp_write out
     = match fst (Pinger.Update now (Client.m_stTcpPinger c)) with
       | Some packet =>
           if Client.state_eqb (Client.m_iTcpChannelState c)
                Client.STATE_TCP_CONNECTED
           then [Client.TcpWrite (Client.m_stTcpSocket c) (WriteStruct packet)]
           else []
       | None => []
       end
  /\ List.filter Client.is_udp_send out
     = match fst (Pinger.Update now (Client.m_stUdpPinger c)) with
       | Some packet =>
           [Client.UdpSend (Client.m_stUdpSocket c)
              (Client.m_stServerEndPoint c) (WriteStruct packet)]
       | None => []
       end
  /\ ((Client.m_ullNextPintStatTime c <=? now) = false ->
      List.filter Client.is_report out = []).
Proof.
  cbn zeta. unfold Client.OnTick, Client.report.
  destruct (Pinger.Update now (Client.m_stTcpPinger c)) as [tcpPacket tcpPinger].
  destruct (Pinger.Update now (Client.m_stUdpPinger c)) as [udpPacket udpPinger].
  cbn [fst].
  destruct (Client.m_ullNextPintStatTime c <=? now),
    (Client.m_ullNextTryConnectTime c <=? now),
    (Client.m_iTcpChannelState c), tcpPacket, udpPacket, (Client.m_pSink c);
    cbn; repeat split; try reflexivity; discriminate.
Qed.

Lemma Update_after_Reset now p :
  0 <= now ->
  fst (Pinger.Update now (Pinger.Reset p))
  = Some {| Seq := Pinger.m_uNextSeq p; SendTime := now |}.
Proof.
  intros Hnow. unfold Pinger.Update. cbn [Pinger.Reset Pinger.m_ullNextSendTime].
  destruct (Z.leb_spec 0 now); [|lia]. reflexivity.
Qed.

(** Once the connect callback reports success the client is connected,
    its TCP estimator starts from zero and reading is started; the next
    tick, whenever it comes, writes a probe on the TCP socket, carrying
    the Seq the estimator had reached before. *)
Theorem connected_then_tick_writes (c : Client.t) (now later : Tick) :
  0 <= later ->
  let r := Client.OnTcpConnected 0 now c in
  Client.m_iTcpChannelState (fst r) = Client.STATE_TCP_CONNECTED
  /\ Pinger.GetStatistic (Client.m_stTcpPinger (fst r))
     = mkPingStatistic 0 0 0 0 0 0
  /\ In (Client.TcpStartRead (Client.m_stTcpSocket c)) (snd r)
  /\ List.filter Client.is_tcp_write (snd (Client.OnTick later (fst r)))
     = [Client.TcpWrite (Client.m_stTcpSocket c)
          (WriteStruct {| Seq := Pinger.m_uNextSeq (Client.m_stTcpPinger c);
                          SendTime := later |})].
Proof.
  intros Hlater r. subst r. cbn [Client.OnTcpConnected Z.eqb fst snd].
  split; [reflexivity|]. split; [reflexivity|]. split; [cbn; tauto|].
  destruct (OnTick_effects later
              (fst (Client.OnTcpConnected 0 now c))) as (_ & Hw & _).
  cbn zeta in Hw. cbn [Client.OnTcpConnected Z.eqb fst] in Hw.
  rewrite Hw. cbn [Client.m_stTcpPinger Client.m_iTcpChannelState
                   Client.m_stTcpSocket Client.state_eqb].
  now rewrite Update_after_Reset.
Qed.

(** Ticks that find the client not in the not-connected state issue no
    connect and leave the state as it is. *)
Lemma ticks_keep_connecting es c :
  Client.m_iTcpChannelState c <> Client.STATE_TCP_NOT_CONNECT ->
  forallb Client.is_tick es = true ->
  List.filter Client.is_tcp_connect (snd (Client.run c es)) = [].
Proof.
  revert c. induction es as [|e es IH]; intros c Hstate Hticks; [reflexivity|].
  cbn [forallb] in Hticks. apply andb_prop in Hticks as [He Hticks].
  destruct e as [now| | | | | |]; try discriminate. cbn [Client.run Client.handle].
  destruct (OnTick_members now c) as (Hs & _).
  destruct (OnTick_effects now c) as (Hc & _). cbn zeta in Hs, Hc.
  assert (Hno : Client.state_eqb (Client.m_iTcpChannelState c)
                  Client.STATE_TCP_NOT_CONNECT = false)
    by (destruct (Client.m_iTcpChannelState c); [congruence|reflexivity..]).
  rewrite Hno in Hs, Hc. cbn [andb] in Hs, Hc.
  destruct (Client.OnTick now c) as [c1 out1]. cbn [fst snd] in *.
  specialize (IH c1). rewrite Hs in IH. specialize (IH Hstate Hticks).
  destruct (Client.run c1 es) as [c2 out2]. cbn [snd] in *.
  now rewrite List.filter_app, Hc, IH.
Qed.

(** Timer ticks alone never issue a second connect: once [Connect] has
    been called the client waits for a callback. *)
Theorem ticks_connect_once (c : Client.t) (es : list Client.event) :
  forallb Client.is_tick es = true ->
  (length (List.filter Client.is_tcp_connect (snd (Client.run c es))) <= 1)%nat.
Proof.
  revert c. induction es as [|e es IH]; intros c Hticks; [cbn; lia|].
  pose proof Hticks as Hall.
  cbn [forallb] in Hticks. apply andb_prop in Hticks as [He Hticks].
  destruct e as [now| | | | | |]; try discriminate. cbn [Client.run Client.handle].
  destruct (OnTick_members now c) as (Hs & _).
  destruct (OnTick_effects now c) as (Hc & _). cbn zeta in Hs, Hc.
  pose proof (ticks_keep_connecting es (fst (Client.OnTick now c))) as Hkeep.
  specialize (IH (fst (Client.OnTick now c)) Hticks).
  destruct (Client.OnTick now c) as [c1 out1]. cbn [fst snd] in *.
  destruct (Client.run c1 es) as [c2 out2]. cbn [snd] in *.
  rewrite List.filter_app, length_app, Hc.
  destruct (_ && _).
  - rewrite Hkeep; [cbn; lia|rewrite Hs; discriminate|exact Hticks].
  - cbn [length]. lia.
Qed.

Lemma ticks_during_backoff es c :
  Client.m_iTcpChannelState c = Client.STATE_TCP_NOT_CONNECT ->
  forallb Client.is_tick es = true ->
  forallb (Client.ticks_before (Client.m_ullNextTryConnectTime c)) es = true ->
  List.filter Client.is_tcp_connect (snd (Client.run c es)) = []
  /\ Client.m_iTcpChannelState (fst (Client.run c es))
     = Client.STATE_TCP_NOT_CONNECT.
Proof.
  revert c. induction es as [|e es IH]; intros c Hstate Hticks Hearly;
    [now split|].
  cbn [forallb] in Hticks, Hearly.
  apply andb_prop in Hticks as [He Hticks].
  apply andb_prop in Hearly as [Hnow Hearly].
  destruct e as [now| | | | | |]; try discriminate.
  cbn [Client.ticks_before] in Hnow. apply Z.ltb_lt in Hnow.
  cbn [Client.run Client.handle].
  destruct (OnTick_members now c) as (Hs & Ht & _).
  destruct (OnTick_effects now c) as (Hc & _). cbn zeta in Hs, Hc.
  destruct (Z.leb_spec (Client.m_ullNextTryConnectTime c) now); [lia|].
  rewrite andb_false_r in Hs, Hc.
  destruct (Client.OnTick now c) as [c1 out1]. cbn [fst snd] in *.
  specialize (IH c1). rewrite Hs, Ht in IH.
  destruct (IH Hstate Hticks Hearly) as [IH1 IH2].
  destruct (Client.run c1 es) as [c2 out2]. cbn [fst snd] in *.
  split; [now rewrite List.filter_app, Hc, IH1|exact IH2].
Qed.

(** After a failed connect, a socket error or a remote EOF at clock [now]
    the ticks that come before [now + 10000] call no [Connect] and leave
    the client not connected. *)
Theorem no_connect_during_backoff (c c' : Client.t) (err : Z) (now : Tick)
    (es : list Client.event) :
  (err <> 0 /\ c' = fst (Client.OnTcpConnected err now c))
  \/ c' = fst (Client.OnTcpError err now c)
  \/ c' = fst (Client.OnTcpDataEof now c) ->
  forallb Client.is_tick es = true ->
  forallb (Client.ticks_before (wrap64 (now + 10 * 1000))) es = true ->
  List.filter Client.is_tcp_connect (snd (Client.run c' es)) = []
  /\ Client.m_iTcpChannelState (fst (Client.run c' es))
     = Client.STATE_TCP_NOT_CONNECT.
Proof.
  intros Hfail Hticks Hearly.
  assert (Hc' : Client.m_iTcpChannelState c' = Client.STATE_TCP_NOT_CONNECT
                /\ Client.m_ullNextTryConnectTime c' = wrap64 (now + 10 * 1000)).
  { destruct Hfail as [[Herr ->]|[->| ->]]; [|now split..].
    unfold Client.OnTcpConnected.
    destruct (Z.eqb_spec err 0); [contradiction|now split]. }
  destruct Hc' as [Hstate Htry].
  apply ticks_during_backoff; [exact Hstate|exact Hticks|now rewrite Htry].
Qed.

Lemma handle_before_report e c :
  Client.ticks_before (Client.m_ullNextPintStatTime c) e = true ->
  List.filter Client.is_report (snd (Client.handle c e)) = []
  /\ Client.m_ullNextPintStatTime (fst (Client.handle c e))
     = Client.m_ullNextPintStatTime c.
Proof.
  intros Hearly.
  destruct e as [now|err now|err now|data now|now|from data now|err];
    cbn [Client.handle].
  - cbn [Client.ticks_before] in Hearly. apply Z.ltb_lt in Hearly.
    destruct (OnTick_members now c) as (_ & _ & Hn & _).
    destruct (OnTick_effects now c) as (_ & _ & _ & Hr). cbn zeta in Hn, Hr.
    destruct (Z.leb_spec (Client.m_ullNextPintStatTime c) now); [lia|].
    split; [now apply Hr|exact Hn].
  - unfold Client.OnTcpConnected. destruct (err =? 0); now split.
  - now split.
  - unfold Client.OnTcpData. destruct (ReadStruct data); now split.
  - now split.
  - unfold Client.OnUdpData. destruct (ReadStruct data); now split.
  - now split.
Qed.

(** No report is logged, and no estimator is reset by the report, before
    the reporting deadline: whatever callbacks arrive, as long as every
    tick comes before [m_ullNextPintStatTime] the run logs no statistics
    line and leaves the deadline where it is. *)
Theorem no_report_before_deadline (c : Client.t) (es : list Client.event) :
  forallb (Client.ticks_before (Client.m_ullNextPintStatTime c)) es = true ->
  List.filter Client.is_report (snd (Client.run c es)) = []
  /\ Client.m_ullNextPintStatTime (fst (Client.run c es))
     = Client.m_ullNextPintStatTime c.
Proof.
  revert c. induction es as [|e es IH]; intros c Hearly; [now split|].
  cbn [forallb] in Hearly. apply andb_prop in Hearly as [He Hearly].
  destruct (handle_before_report e c He) as [Hr Hn].
  cbn [Client.run]. destruct (Client.handle c e) as [c1 out1].
  cbn [fst snd] in *. specialize (IH c1). rewrite Hn in IH.
  destruct (IH Hearly) as [IH1 IH2].
  destruct (Client.run c1 es) as [c2 out2]. cbn [fst snd] in *.
  split; [now rewrite List.filter_app, Hr, IH1|exact IH2].
Qed.

(** What an event does to the UDP estimator and the reporting deadline
    depends on these two alone, and only ticks and UDP datagrams do
    anything to them. *)
Lemma handle_udp_pinger e c c' :
  Client.m_stUdpPinger c = Client.m_stUdpPinger c' ->
  Client.m_ullNextPintStatTime c = Client.m_ullNextPintStatTime c' ->
  (Client.m_stUdpPinger (fst (Client.handle c e))
   = Client.m_stUdpPinger (fst (Client.handle c' e))
   /\ Client.m_ullNextPintStatTime (fst (Client.handle c e))
      = Client.m_ullNextPintStatTime (fst (Client.handle c' e)))
  /\ (Client.reaches_udp_pinger e = false ->
      Client.m_stUdpPinger (fst (Client.handle c e)) = Client.m_stUdpPinger c
      /\ Client.m_ullNextPintStatTime (fst (Client.handle c e))
         = Client.m_ullNextPintStatTime c).
Proof.
  intros Hp Hn.
  destruct e as [now|err now|err now|data now|now|from data now|err];
    cbn [Client.handle Client.reaches_udp_pinger].
  - destruct (OnTick_members now c) as (_ & _ & Hn1 & _ & Hp1 & _).
    destruct (OnTick_members now c') as (_ & _ & Hn2 & _ & Hp2 & _).
    cbn zeta in *. rewrite Hn1, Hn2, Hp1, Hp2, Hp, Hn.
    split; [now split|discriminate].
  - unfold Client.OnTcpConnected. destruct (err =? 0); cbn; now repeat split.
  - cbn. now repeat split.
  - unfold Client.OnTcpData. destruct (ReadStruct data); cbn; now repeat split.
  - cbn. now repeat split.
  - unfold Client.OnUdpData. destruct (ReadStruct data); cbn;
      (split; [split; congruence|discriminate]).
  - cbn. now repeat split.
Qed.

Lemma run_udp_pinger es c c' :
  Client.m_stUdpPinger c = Client.m_stUdpPinger c' ->
  Client.m_ullNextPintStatTime c = Client.m_ullNextPintStatTime c' ->
  Client.m_stUdpPinger (fst (Client.run c es))
  = Client.m_stUdpPinger
      (fst (Client.run c' (List.filter Client.reaches_udp_pinger es))).
Proof.
  revert c c'. induction es as [|e es IH]; intros c c' Hp Hn; [exact Hp|].
  cbn [Client.run List.filter].
  destruct (handle_udp_pinger e c c' Hp Hn) as [[Hp1 Hn1] Hskip].
  destruct (Client.reaches_udp_pinger e).
  - cbn [Client.run].
    destruct (Client.handle c e) as [c1 out1].
    destruct (Client.handle c' e) as [c1' out1']. cbn [fst] in *.
    specialize (IH c1 c1' Hp1 Hn1).
    destruct (Client.run c1 es), (Client.run c1' _). exact IH.
  - destruct (Hskip eq_refl) as [Hp2 Hn2].
    destruct (Client.handle c e) as [c1 out1]. cbn [fst] in *.
    specialize (IH c1 c' ltac:(congruence) ltac:(congruence)).
    destruct (Client.run c1 es). exact IH.
Qed.

(** TCP never disturbs the UDP estimator: after any run of events it is
    in the state it would be in had only the ticks and the UDP datagrams
    of the run been delivered. *)
Theorem udp_pinger_ignores_tcp (c : Client.t) (es : list Client.event) :
  Client.m_stUdpPinger (fst (Client.run c es))
  = Client.m_stUdpPinger
      (fst (Client.run c (List.filter Client.reaches_udp_pinger es))).
Proof. now apply run_udp_pinger. Qed.

Lemma OnUdpData_pinger from data now c :
  forall packet, ReadStruct data = Some packet ->
    Client.m_stUdpPinger (fst (Client.OnUdpData from data now c))
    = Pinger.Recv now packet (Client.m_stUdpPinger c).
Proof.
  intros packet Hdecode. unfold Client.OnUdpData. now rewrite Hdecode.
Qed.

Lemma OnTcpData_pinger data now c :
  forall packet, ReadStruct data = Some packet ->
    Client.m_stTcpPinger (fst (Client.OnTcpData data now c))
    = Pinger.Recv now packet (Client.m_stTcpPinger c).
Proof.
  intros packet Hdecode. unfold Client.OnTcpData. now rewrite Hdecode.
Qed.

(** End to end over UDP: on a tick that is not a reporting one, the probe
    the client sends, echoed by the server to its sender and decoded back
    by the client, is counted as acknowledged with latency [now' - now],
    whoever the datagram claims to come from. *)
Theorem udp_echo_round_trip (c : Client.t) (now now' : Tick)
    (client_addr from : EndPoint) :
  let pinger := Client.m_stUdpPinger c in
  let packet := {| Seq := Pinger.m_uNextSeq pinger; SendTime := now |} in
  ReadStruct (WriteStruct packet) = Some packet ->
  is_u32 (Pinger.m_uNextSeq pinger) ->
  Z.of_nat (length (Pinger.m_stPingWindow pinger)) + 1 < 2 ^ 32 ->
  Pinger.m_ullNextSendTime pinger <= now ->
  now < Client.m_ullNextPintStatTime c ->
  let c1 := fst (Client.OnTick now c) in
  let echo := Server.OnUdpData client_addr (WriteStruct packet) in
  let c2 := fst (Client.OnUdpData from (snd echo) now' c1) in
  List.filter Client.is_udp_send (snd (Client.OnTick now c))
  = [Client.UdpSend (Client.m_stUdpSocket c) (Client.m_stServerEndPoint c)
       (WriteStruct packet)]
  /\ fst echo = client_addr
  /\ Pinger.m_uAvailablePacket (Client.m_stUdpPinger c2)
     = wrap32 (Pinger.m_uAvailablePacket pinger + 1)
  /\ Pinger.m_uLatencyTotal (Client.m_stUdpPinger c2)
     = wrap32 (Pinger.m_uLatencyTotal pinger + wrap32 (wrap64 (now' - now))).
Proof.
  intros pinger packet Hcodec Hseq Hsize Hdue Hearly c1 echo c2.
  destruct (OnTick_effects now c) as (_ & _ & Hu & _).
  destruct (OnTick_members now c) as (_ & _ & _ & _ & Hp & _).
  cbn zeta in Hu, Hp. fold pinger c1 in Hu, Hp.
  destruct (Update_sends now pinger Hdue) as (Hpk & _).
  rewrite Hpk in Hu. fold packet in Hu.
  destruct (Z.leb_spec (Client.m_ullNextPintStatTime c) now); [lia|].
  destruct (Update_then_Recv now now' pinger Hseq Hsize Hdue)
    as (_ & _ & Ha & Hl). cbn zeta in Ha, Hl. fold packet in Ha, Hl.
  subst c2 echo. cbn [Server.OnUdpData fst snd].
  rewrite (OnUdpData_pinger from (WriteStruct packet) now' c1 packet Hcodec), Hp.
  now repeat split.
Qed.

(** End to end over TCP: the probe a connected client writes, echoed by
    the server session that receives it (which is thereby refreshed), and
    decoded back by the client, is counted as acknowledged. *)
Theorem tcp_echo_round_trip (c : Client.t) (now now' arrival : Tick)
    (s : Server.Session) :
  let pinger := Client.m_stTcpPinger c in
  let packet := {| Seq := Pinger.m_uNextSeq pinger; SendTime := now |} in
  ReadStruct (WriteStruct packet) = Some packet ->
  Client.m_iTcpChannelState c = Client.STATE_TCP_CONNECTED ->
  is_u32 (Pinger.m_uNextSeq pinger) ->
  Z.of_nat (length (Pinger.m_stPingWindow pinger)) + 1 < 2 ^ 32 ->
  Pinger.m_ullNextSendTime pinger <= now ->
  now < Client.m_ullNextPintStatTime c ->
  let c1 := fst (Client.OnTick now c) in
  let echo := Server.Session_OnTcpData (WriteStruct packet) arrival s in
  let c2 := fst (Client.OnTcpData (snd echo) now' c1) in
  List.filter Client.is_tcp_write (snd (Client.OnTick now c))
  = [Client.TcpWrite (Client.m_stTcpSocket c) (WriteStruct packet)]
  /\ Server.LastAlive (fst echo) = arrival
  /\ Pinger.m_uAvailablePacket (Client.m_stTcpPinger c2)
     = wrap32 (Pinger.m_uAvailablePacket pinger + 1)
  /\ Pinger.m_uLatencyTotal (Client.m_stTcpPinger c2)
     = wrap32 (Pinger.m_uLatencyTotal pinger + wrap32 (wrap64 (now' - now))).
Proof.
  intros pinger packet Hcodec Hstate Hseq Hsize Hdue Hearly c1 echo c2.
  destruct (OnTick_effects now c) as (_ & Hw & _).
  destruct (OnTick_members now c) as (_ & _ & _ & Hp & _).
  cbn zeta in Hw, Hp. fold pinger c1 in Hw, Hp.
  destruct (Update_sends now pinger Hdue) as (Hpk & _).
  rewrite Hpk, Hstate in Hw. fold packet in Hw. cbn [Client.state_eqb] in Hw.
  destruct (Z.leb_spec (Client.m_ullNextPintStatTime c) now); [lia|].
  destruct (Update_then_Recv now now' pinger Hseq Hsize Hdue)
    as (_ & _ & Ha & Hl). cbn zeta in Ha, Hl. fold packet in Ha, Hl.
  subst c2 echo. cbn [Server.Session_OnTcpData fst snd Server.LastAlive].
  rewrite (OnTcpData_pinger (WriteStruct packet) now' c1 packet Hcodec), Hp.
  now repeat split.
Qed.

Lemma Recv_on_empty now packet p :
  Pinger.m_stPingWindow p = [] -> Pinger.Recv now packet p = p.
Proof.
  intros Hempty. unfold Pinger.Recv.
  pose proof (wrap64_range (Z.of_nat (length (Pinger.m_stPingWindow p))
                - wrap32 (Pinger.m_uNextSeq p - Seq packet))) as [Hoff _].
  fold (Pinger.offset_of p packet) in Hoff. rewrite Hempty.
  destruct (Z.leb_spec (Z.of_nat (length (@nil bool)))
              (Pinger.offset_of p packet)); [reflexivity|cbn in *; lia].
Qed.

(** A reporting tick sends its probes and then resets both estimators:
    their snapshots are zero, the next report is due 60 s later, and until
    the next tick every packet that comes back, the echo of the probe
    just sent included, leaves the client as it is.  The first tick of a
    client is always such a tick. *)
Theorem reporting_tick_forgets (c : Client.t) (now now' : Tick)
    (from : EndPoint) (data : BytesView) :
  Client.m_ullNextPintStatTime c <= now ->
  let c1 := fst (Client.OnTick now c) in
  Pinger.GetStatistic (Client.m_stTcpPinger c1) = mkPingStatistic 0 0 0 0 0 0
  /\ Pinger.GetStatistic (Client.m_stUdpPinger c1) = mkPingStatistic 0 0 0 0 0 0
  /\ Client.m_ullNextPintStatTime c1 = wrap64 (now + 60 * 1000)
  /\ List.filter Client.is_udp_send (snd (Client.OnTick now c))
     = match fst (Pinger.Update now (Client.m_stUdpPinger c)) with
       | Some packet =>
           [Client.UdpSend (Client.m_stUdpSocket c)
              (Client.m_stServerEndPoint c) (WriteStruct packet)]
       | None => []
       end
  /\ fst (Client.OnUdpData from data now' c1) = c1
  /\ fst (Client.OnTcpData data now' c1) = c1.
Proof.
  intros Hdue c1.
  destruct (OnTick_effects now c) as (_ & _ & Hu & _).
  destruct (OnTick_members now c) as (_ & _ & Hn & Ht & Hp & _).
  cbn zeta in Hu, Hn, Ht, Hp. fold c1 in Hn, Ht, Hp.
  destruct (Z.leb_spec (Client.m_ullNextPintStatTime c) now); [|lia].
  rewrite Ht, Hp. split; [reflexivity|]. split; [reflexivity|].
  split; [exact Hn|]. split; [exact Hu|]. split.
  - unfold Client.OnUdpData. destruct (ReadStruct data); [|reflexivity].
    cbn [fst]. rewrite Hp, Recv_on_empty by reflexivity. rewrite <- Hp.
    now destruct c1.
  - unfold Client.OnTcpData. destruct (ReadStruct data); [|reflexivity].
    cbn [fst]. rewrite Ht, Recv_on_empty by reflexivity. rewrite <- Ht.
    now destruct c1.
Qed.

(** After a UDP socket error the client holds a new UDP socket, bound and
    reading; the TCP side and both estimators are as before, and the next
    UDP probe goes out on the new socket. *)
Theorem OnUdpError_then_tick (c : Client.t) (err : Z) (now : Tick) :
  let r := Client.OnUdpError err c in
  let fresh := Client.m_uNextSocket c in
  snd r = [Client.LogError "Udp socket error" err; Client.UdpCreate fresh;
           Client.UdpBindEvent fresh; Client.UdpStartRead fresh]
  /\ Client.m_stTcpSocket (fst r) = Client.m_stTcpSocket c
  /\ Client.m_iTcpChannelState (fst r) = Client.m_iTcpChannelState c
  /\ Client.m_stTcpPinger (fst r) = Client.m_stTcpPinger c
  /\ Client.m_stUdpPinger (fst r) = Client.m_stUdpPinger c
  /\ List.filter Client.is_udp_send (snd (Client.OnTick now (fst r)))
     = match fst (Pinger.Update now (Client.m_stUdpPinger c)) with
       | Some packet =>
           [Client.UdpSend fresh (Client.m_stServerEndPoint c)
              (WriteStruct packet)]
       | None => []
       end.
Proof.
  cbn zeta. repeat (split; [reflexivity|]).
  destruct (OnTick_effects now (fst (Client.OnUdpError err c)))
    as (_ & _ & Hu & _). exact Hu.
Qed.

End ClientSchedule.

Lemma connected_then_tick_writes_witness :
  0 <= 100
  /\ List.filter Client.is_tcp_write
       (snd (Client.OnTick (codec := fixed_codec) 100 client_connected))
     = [Client.TcpWrite 0%nat
          (WriteStruct (MdrCodec := fixed_codec) {| Seq := 1; SendTime := 100 |})].
Proof.
  split; [lia|].
  exact (proj2 (proj2 (proj2
    (connected_then_tick_writes (codec := fixed_codec) client_started 30 100
       ltac:(lia))))).
Defined.

Lemma ticks_connect_once_witness :
  forallb Client.is_tick thirty_seconds = true
  /\ List.filter Client.is_tcp_connect
       (snd (Client.run (codec := fixed_codec) client0 thirty_seconds))
     = [Client.TcpConnect 0%nat server]
  /\ (length (List.filter Client.is_tcp_connect
                (snd (Client.run (codec := fixed_codec) client0 thirty_seconds)))
      <= 1)%nat.
Proof.
  assert (H : forallb Client.is_tick thirty_seconds = true)
    by (vm_compute; reflexivity).
  split; [exact H|]. split; [vm_compute; reflexivity|].
  exact (ticks_connect_once (codec := fixed_codec) client0 thirty_seconds H).
Defined.

Lemma no_connect_during_backoff_witness :
  let failed := fst (Client.OnTcpConnected (-111) 50
                       client_started) in
  -111 <> 0
  /\ forallb (Client.ticks_before (wrap64 (50 + 10 * 1000))) ten_seconds = true
  /\ List.filter Client.is_tcp_connect
       (snd (Client.run (codec := fixed_codec) failed ten_seconds)) = [].
Proof.
  cbn zeta.
  assert (Hearly : forallb (Client.ticks_before (wrap64 (50 + 10 * 1000)))
                     ten_seconds = true) by (vm_compute; reflexivity).
  split; [discriminate|]. split; [exact Hearly|].
  assert (Hticks : forallb Client.is_tick ten_seconds = true)
    by (vm_compute; reflexivity).
  assert (Hfail : -111 <> 0) by discriminate.
  apply (no_connect_during_backoff (codec := fixed_codec) client_started
           (fst (Client.OnTcpConnected (-111) 50 client_started))
           (-111) 50 ten_seconds);
    [left; split; [exact Hfail|reflexivity]|exact Hticks|exact Hearly].
Defined.

Lemma no_report_before_deadline_witness :
  let es := Client.EvTcpConnected (-111) 50 :: thirty_seconds in
  Client.m_ullNextPintStatTime client_started = 60000
  /\ forallb (Client.ticks_before
                (Client.m_ullNextPintStatTime client_started)) es = true
  /\ List.filter Client.is_report
       (snd (Client.run (codec := fixed_codec) client_started es)) = [].
Proof.
  cbn zeta.
  assert (Hearly : forallb (Client.ticks_before
                              (Client.m_ullNextPintStatTime client_started))
                     (Client.EvTcpConnected (-111) 50 :: thirty_seconds) = true)
    by (vm_compute; reflexivity).
  split; [reflexivity|]. split; [exact Hearly|].
  exact (proj1 (no_report_before_deadline (codec := fixed_codec)
                  client_started _ Hearly)).
Defined.

Lemma udp_echo_round_trip_witness :
  let packet := {| Seq := 1; SendTime := 100 |} in
  let c1 := fst (Client.OnTick (codec := fixed_codec) 100 client_started) in
  let echo := Server.OnUdpData stranger
                (WriteStruct (MdrCodec := fixed_codec) packet) in
  ReadStruct (MdrCodec := fixed_codec)
    (WriteStruct (MdrCodec := fixed_codec) packet) = Some packet
  /\ Pinger.m_uAvailablePacket
       (Client.m_stUdpPinger
          (fst (Client.OnUdpData (codec := fixed_codec) server (snd echo)
                  145 c1))) = 1
  /\ Pinger.m_uLatencyTotal
       (Client.m_stUdpPinger
          (fst (Client.OnUdpData (codec := fixed_codec) server (snd echo)
                  145 c1))) = 45.
Proof.
  cbn zeta. split; [reflexivity|].
  exact (proj2 (proj2
    (udp_echo_round_trip (codec := fixed_codec) client_started 100 145
       stranger server eq_refl
       ltac:(unfold is_u32; vm_compute; split; [discriminate|reflexivity])
       ltac:(vm_compute; reflexivity)
       ltac:(vm_compute; discriminate)
       ltac:(vm_compute; reflexivity)))).
Defined.

Lemma tcp_echo_round_trip_witness :
  let packet := {| Seq := 1; SendTime := 100 |} in
  let session := Server.mkSession (Server.mkTcpSocket 7 false) 20 false in
  let c1 := fst (Client.OnTick (codec := fixed_codec) 100 client_connected) in
  let echo := Server.Session_OnTcpData
                (WriteStruct (MdrCodec := fixed_codec) packet) 120 session in
  Client.m_iTcpChannelState client_connected = Client.STATE_TCP_CONNECTED
  /\ Server.LastAlive (fst echo) = 120
  /\ Pinger.m_uAvailablePacket
       (Client.m_stTcpPinger
          (fst (Client.OnTcpData (codec := fixed_codec) (snd echo) 145 c1)))
     = 1.
Proof.
  cbn zeta. split; [reflexivity|].
  destruct (tcp_echo_round_trip (codec := fixed_codec) client_connected
              100 145 120
              (Server.mkSession (Server.mkTcpSocket 7 false) 20 false)
              eq_refl eq_refl
              ltac:(unfold is_u32; vm_compute; split; [discriminate|reflexivity])
              ltac:(vm_compute; reflexivity)
              ltac:(vm_compute; discriminate)
              ltac:(vm_compute; reflexivity)) as (_ & Halive & Hacked & _).
  split; [exact Halive|exact Hacked].
Defined.

Lemma reporting_tick_forgets_witness :
  let first := {| Seq := 0; SendTime := 0 |} in
  Client.m_ullNextPintStatTime client0 <= 0
  /\ List.filter Client.is_udp_send
       (snd (Client.OnTick (codec := fixed_codec) 0 client0))
     = [Client.UdpSend 1%nat server (WriteStruct (MdrCodec := fixed_codec) first)]
  /\ fst (Client.OnUdpData (codec := fixed_codec) server
            (WriteStruct (MdrCodec := fixed_codec) first) 40 client_started)
     = client_started.
Proof.
  cbn zeta.
  assert (Hdue : Client.m_ullNextPintStatTime client0 <= 0) by (cbn; lia).
  split; [exact Hdue|]. split; [reflexivity|].
  exact (proj1 (proj2 (proj2 (proj2 (proj2
    (reporting_tick_forgets (codec := fixed_codec) client0 0 40 server
       (WriteStruct (MdrCodec := fixed_codec) {| Seq := 0; SendTime := 0 |})
       Hdue)))))).
Defined.

(** * Further properties of the server *)

Lemma OnTick_app now sessions1 sessions2 :
  Server.OnTick now (sessions1 ++ sessions2)
  = Server.OnTick now sessions1 ++ Server.OnTick now sessions2.
Proof.
  induction sessions1 as [|s sessions1 IH]; [reflexivity|].
  cbn [app Server.OnTick]. rewrite IH.
  destruct (Server.Dead s); [reflexivity|]. destruct (_ <=? _); reflexivity.
Qed.

Lemma OnTick_keeps now s sessions :
  In s sessions -> Server.Dead s = false ->
  now < wrap64 (Server.LastAlive s + 60 * 1000) ->
  In s (Server.OnTick now sessions).
Proof.
  intros Hin Hlive Hfresh. rewrite OnTick_live. apply in_map_iff.
  exists s. split.
  - destruct (Z.leb_spec (wrap64 (Server.LastAlive s + 60 * 1000)) now);
      [lia|reflexivity].
  - apply list_elem_of_In. apply list_elem_of_filter. split; [exact Hlive|].
    now apply list_elem_of_In.
Qed.

(** Whatever made the sessions dead before it, a dead session still in
    the registry after a tick has a closed socket: the sessions an error
    callback killed without a [Close()] call are gone. *)
Theorem OnTick_dead_are_closed (now : Tick) (sessions : list Server.Session)
    (x : Server.Session) :
  In x (Server.OnTick now sessions) -> Server.Dead x = true ->
  Server.Closed (Server.Socket x) = true.
Proof.
  rewrite OnTick_live. intros Hin Hdead.
  apply in_map_iff in Hin as (s & Hx & Hs).
  apply list_elem_of_In in Hs. apply list_elem_of_filter in Hs as [Hlive _].
  destruct (_ <=? _); subst x; [reflexivity|congruence].
Qed.

Lemma OnTick_dead_are_closed_witness :
  let killed := Server.Session_OnTcpError (-104)
                  (Server.mkSession (Server.mkTcpSocket 9 false) 60500 false) in
  let sessions := three_sessions ++ [killed] in
  Server.Closed (Server.Socket killed) = false
  /\ In (Server.expire (Server.mkSession (Server.mkTcpSocket 2 false) 1000 false))
        (Server.OnTick 61000 sessions)
  /\ Server.Closed
       (Server.Socket
          (Server.expire
             (Server.mkSession (Server.mkTcpSocket 2 false) 1000 false)))
     = true.
Proof.
  cbn zeta. split; [reflexivity|].
  assert (Hin : In (Server.expire
                      (Server.mkSession (Server.mkTcpSocket 2 false) 1000 false))
                   (Server.OnTick 61000
                      (three_sessions
                       ++ [Server.Session_OnTcpError (-104)
                             (Server.mkSession (Server.mkTcpSocket 9 false)
                                60500 false)]))) by (vm_compute; auto).
  split; [exact Hin|].
  exact (OnTick_dead_are_closed 61000 _ _ Hin eq_refl).
Defined.

(** A tick that finds every session live and heard from within the last
    60 s changes nothing. *)
Theorem OnTick_fresh_unchanged (now : Tick) (sessions : list Server.Session) :
  Forall (fun s => Server.Dead s = false
                   /\ now < wrap64 (Server.LastAlive s + 60 * 1000)) sessions ->
  Server.OnTick now sessions = sessions.
Proof.
  induction 1 as [|s sessions [Hlive Hfresh] _ IH]; [reflexivity|].
  cbn [Server.OnTick]. rewrite Hlive, IH.
  destruct (Z.leb_spec (wrap64 (Server.LastAlive s + 60 * 1000)) now);
    [lia|reflexivity].
Qed.

Lemma OnTick_fresh_unchanged_witness :
  let sessions := [Server.mkSession (Server.mkTcpSocket 2 false) 1000 false;
                   Server.mkSession (Server.mkTcpSocket 3 false) 50000 false] in
  Server.OnTick 60999 sessions = sessions.
Proof.
  apply (OnTick_fresh_unchanged 60999
           [Server.mkSession (Server.mkTcpSocket 2 false) 1000 false;
            Server.mkSession (Server.mkTcpSocket 3 false) 50000 false]).
  repeat constructor; vm_compute; reflexivity.
Defined.

(** Data keeps a session: a live session that receives bytes at [now]
    has them written back unchanged and is still in the registry, live,
    after every tick that comes before [now + 60000]. *)
Theorem data_keeps_session (now later : Tick) (data : BytesView)
    (s : Server.Session) (sessions : list Server.Session) :
  In s sessions -> Server.Dead s = false ->
  0 <= now -> later < now + 60 * 1000 -> now + 60 * 1000 < 2 ^ 64 ->
  let sessions' :=
    Server.handle sessions (Server.EvData (Server.Peer (Server.Socket s))
                              data now) in
  snd (Server.Session_OnTcpData data now s) = data
  /\ In {| Server.Socket := Server.Socket s; Server.LastAlive := now;
           Server.Dead := false |}
        (Server.OnTick later sessions').
Proof.
  intros Hin Hlive Hnow Hlater Hfit sessions'. split; [reflexivity|].
  apply OnTick_keeps; [|reflexivity|].
  - subst sessions'. cbn [Server.handle]. unfold Server.on_session.
    apply in_map_iff. exists s. split; [|exact Hin].
    rewrite Nat.eqb_refl. cbn. now rewrite Hlive.
  - cbn [Server.LastAlive]. rewrite wrap64_small by (unfold is_u64; lia).
    exact Hlater.
Qed.

Lemma data_keeps_session_witness :
  let s := Server.mkSession (Server.mkTcpSocket 2 false) 1000 false in
  In (Server.expire s) (Server.OnTick 61000 three_sessions)
  /\ In (Server.mkSession (Server.mkTcpSocket 2 false) 60900 false)
        (Server.OnTick 61000
           (Server.handle three_sessions (Server.EvData 2 [1; 2; 3] 60900))).
Proof.
  split; [vm_compute; auto|].
  apply (data_keeps_session 60900 61000 [1; 2; 3]
           (Server.mkSession (Server.mkTcpSocket 2 false) 1000 false)
           three_sessions); [vm_compute; auto|reflexivity|lia..].
Defined.

(** An accepted connection joins the registry as its last session, live
    from the clock value of the accept notwithstanding the constructor's
    [Dead = true]: the next tick keeps it, expiring it only once 60 s have
    gone by, and treats the other sessions as if it were not there. *)
Theorem accept_then_tick (socket : Server.TcpSocket) (now later : Tick)
    (sessions : list Server.Session) :
  let session := {| Server.Socket := socket; Server.LastAlive := now;
                    Server.Dead := false |} in
  Server.OnTick later (Server.OnTcpConnection socket now sessions)
  = Server.OnTick later sessions
    ++ [if wrap64 (now + 60 * 1000) <=? later
        then Server.expire session else session].
Proof.
  cbn zeta. unfold Server.OnTcpConnection. rewrite OnTick_app.
  cbn [Server.OnTick Server.new_Session Server.Socket Server.Dead
       Server.LastAlive].
  destruct (_ <=? _); reflexivity.
Qed.

(** * How long an unanswered probe stays in the window *)

Lemma capacity_spec interval timeout (k : Z) :
  0 < interval -> 0 <= timeout -> 1 <= k ->
  (timeout <= k * interval <-> Pinger.capacity interval timeout <= k).
Proof.
  intros Hi Ht Hk. unfold Pinger.capacity.
  assert (Hceil : timeout <= k * interval
                  <-> (timeout + interval - 1) / interval <= k).
  { split; intros H.
    - apply Z.lt_succ_r. apply Z.div_lt_upper_bound; lia.
    - pose proof (Z.mod_pos_bound (timeout + interval - 1) interval Hi).
      pose proof (Z.div_mod (timeout + interval - 1) interval). nia. }
  lia.
Qed.

Lemma evict_unanswered interval timeout (k : nat) lost :
  is_u32 interval -> is_u32 timeout -> 0 < interval ->
  Z.of_nat k <= Pinger.capacity interval timeout ->
  Pinger.evict interval timeout (repeat false k) lost
  = if Z.of_nat k <? Pinger.capacity interval timeout
    then (repeat false k, lost)
    else (repeat false (k - 1), wrap32 (lost + 1)).
Proof.
  unfold is_u32. intros Hi Ht Hpos Hk.
  assert (Hcap : 1 <= Pinger.capacity interval timeout < 2 ^ 32).
  { unfold Pinger.capacity. split; [lia|]. apply Z.max_lub_lt; [lia|].
    apply Z.div_lt_upper_bound; nia. }
  destruct k as [|k].
  - cbn [repeat Pinger.evict].
    destruct (Z.ltb_spec (Z.of_nat 0) (Pinger.capacity interval timeout));
      [reflexivity|lia].
  - cbn [repeat Pinger.evict length]. rewrite repeat_length.
    rewrite wrap64_small by (unfold is_u64; nia).
    pose proof (capacity_spec interval timeout (Z.of_nat (S k)) Hpos) as Hspec.
    destruct (Z.ltb_spec (Z.of_nat (S k)) (Pinger.capacity interval timeout))
      as [Hlt|Hge];
      destruct (Z.leb_spec timeout (Z.of_nat (S k) * interval)) as [Hev|Hkeep];
      try reflexivity; try (exfalso; lia).
    replace (S k - 1)%nat with k by lia.
    destruct k as [|k]; [reflexivity|].
    cbn [repeat Pinger.evict length]. rewrite repeat_length.
    rewrite wrap64_small by (unfold is_u64; nia).
    pose proof (capacity_spec interval timeout (Z.of_nat (S k)) Hpos) as Hspec'.
    destruct (Z.leb_spec timeout (Z.of_nat (S k) * interval)); [lia|reflexivity].
Qed.

Lemma step_unanswered interval timeout p c (n : nat) :
  is_u32 interval -> is_u32 timeout -> 0 < interval ->
  Pinger.is_update c = true ->
  Z.of_nat n + 1 < 2 ^ 32 ->
  let cap := Z.to_nat (Pinger.capacity interval timeout) in
  Pinger.configured interval timeout p ->
  Pinger.m_stPingWindow p = repeat false (Nat.min n cap) ->
  Pinger.m_uPacketLost p = Z.of_nat (n - Nat.min n cap) ->
  Pinger.m_uTotalPacket p = Z.of_nat n ->
  let n' := (n + length (Pinger.emit p c))%nat in
  Pinger.configured interval timeout (Pinger.step p c)
  /\ Pinger.m_stPingWindow (Pinger.step p c) = repeat false (Nat.min n' cap)
  /\ Pinger.m_uPacketLost (Pinger.step p c) = Z.of_nat (n' - Nat.min n' cap)
  /\ Pinger.m_uTotalPacket (Pinger.step p c) = Z.of_nat n'.
Proof.
  intros Hi Ht Hpos Hc Hn cap [Hci Hct] Hw Hl Htot n'.
  destruct c as [now| |]; try discriminate. subst n'.
  cbn [Pinger.step Pinger.emit]. unfold Pinger.Update.
  destruct (Pinger.m_ullNextSendTime p <=? now);
    [|cbn [fst snd length]; rewrite Nat.add_0_r; now repeat split].
  assert (Hcap : 1 <= Pinger.capacity interval timeout)
    by (unfold Pinger.capacity; lia).
  rewrite Hci, Hct, Hw, Hl, Htot.
  rewrite evict_unanswered by (try assumption; subst cap; lia).
  destruct (Z.ltb_spec (Z.of_nat (Nat.min n cap))
              (Pinger.capacity interval timeout)) as [Hlt|Hge];
    cbn [fst snd length Pinger.m_stPingWindow Pinger.m_uPacketLost
         Pinger.m_uTotalPacket].
  - assert (Hmin : Nat.min n cap = n) by (subst cap; lia).
    assert (Hmin' : Nat.min (n + 1) cap = S n) by (subst cap; lia).
    rewrite Hmin, Hmin'. rewrite <- repeat_cons.
    rewrite (wrap32_small (Z.of_nat n + 1)) by (unfold is_u32; lia).
    repeat split; try assumption; try reflexivity; lia.
  - assert (Hmin : Nat.min n cap = cap) by (subst cap; lia).
    assert (Hmin' : Nat.min (n + 1) cap = cap) by (subst cap; lia).
    rewrite Hmin, Hmin'.
    replace (repeat false (cap - 1) ++ [false]) with (repeat false cap).
    2:{ replace cap with (S (cap - 1)) at 1 by (subst cap; lia).
        cbn [repeat]. apply repeat_cons. }
    rewrite (wrap32_small (Z.of_nat n + 1)),
      (wrap32_small (Z.of_nat (n - cap) + 1)) by (unfold is_u32; lia).
    repeat split; try assumption; try reflexivity; lia.
Qed.

(** Loss detection takes [capacity] sends: from a fresh estimator with a
    positive interval, after [n] probes none of which is answered the
    window holds the newest [min n capacity] of them and exactly the other
    [n - min n capacity] are counted lost, where [capacity] is
    [Timeout / Interval] rounded up (at least 1).  So a probe is counted
    lost when the [capacity]-th probe after it is sent, not before. *)
Theorem unanswered_probes_lost (interval timeout : Z)
    (cs : list Pinger.call) :
  is_u32 interval -> is_u32 timeout -> 0 < interval ->
  forallb Pinger.is_update cs = true ->
  Z.of_nat (length cs) < 2 ^ 32 ->
  let p0 := Pinger.create interval timeout in
  let n := length (Pinger.sent p0 cs) in
  let cap := Z.to_nat (Pinger.capacity interval timeout) in
  Pinger.m_stPingWindow (Pinger.run p0 cs) = repeat false (Nat.min n cap)
  /\ Pinger.m_uPacketLost (Pinger.run p0 cs) = Z.of_nat (n - Nat.min n cap)
  /\ Pinger.m_uTotalPacket (Pinger.run p0 cs) = Z.of_nat n.
Proof.
  intros Hi Ht Hpos Hcs Hfit p0 n cap.
  enough (Hgen : forall cs p (m : nat),
             forallb Pinger.is_update cs = true ->
             Z.of_nat m + Z.of_nat (length cs) < 2 ^ 32 ->
             Pinger.configured interval timeout p ->
             Pinger.m_stPingWindow p = repeat false (Nat.min m cap) ->
             Pinger.m_uPacketLost p = Z.of_nat (m - Nat.min m cap) ->
             Pinger.m_uTotalPacket p = Z.of_nat m ->
             let m' := (m + length (Pinger.sent p cs))%nat in
             Pinger.m_stPingWindow (Pinger.run p cs)
             = repeat false (Nat.min m' cap)
             /\ Pinger.m_uPacketLost (Pinger.run p cs)
                = Z.of_nat (m' - Nat.min m' cap)
             /\ Pinger.m_uTotalPacket (Pinger.run p cs) = Z.of_nat m').
  { apply (Hgen cs p0 0%nat); try assumption; try reflexivity; try lia.
    now split. }
  clear cs Hcs Hfit n. induction cs as [|c cs IH];
    intros p m Hcs Hfit Hconf Hw Hl Htot m'.
  - subst m'. cbn [Pinger.sent length Pinger.run fold_left].
    rewrite Nat.add_0_r. now repeat split.
  - cbn [forallb] in Hcs. apply andb_prop in Hcs as [Hc Hcs].
    cbn [length] in Hfit.
    pose proof (sent_length p [c]) as Hone.
    cbn [Pinger.sent length] in Hone. rewrite app_nil_r in Hone.
    destruct (step_unanswered interval timeout p c m Hi Ht Hpos Hc
                ltac:(lia) Hconf Hw Hl Htot) as (Hconf' & Hw' & Hl' & Htot').
    specialize (IH (Pinger.step p c) (m + length (Pinger.emit p c))%nat Hcs
                  ltac:(lia) Hconf' Hw' Hl' Htot').
    subst m'. cbn [Pinger.sent Pinger.run fold_left]. rewrite length_app.
    cbn zeta in IH. unfold Pinger.run in IH. rewrite Nat.add_assoc. exact IH.
Qed.

Lemma unanswered_probes_lost_witness :
  let cs := map (fun k : nat => Pinger.CallUpdate (500 * Z.of_nat k)) (seq 0 17) in
  Pinger.capacity 1000 5000 = 5
  /\ length (Pinger.sent (Pinger.create 1000 5000) cs) = 9%nat
  /\ Pinger.m_stPingWindow (Pinger.run (Pinger.create 1000 5000) cs)
     = [false; false; false; false; false]
  /\ Pinger.m_uPacketLost (Pinger.run (Pinger.create 1000 5000) cs) = 4.
Proof.
  cbn zeta. split; [reflexivity|]. split; [reflexivity|].
  destruct (unanswered_probes_lost 1000 5000
              (map (fun k : nat => Pinger.CallUpdate (500 * Z.of_nat k)) (seq 0 17)))
    as (Hw & Hl & _);
    [unfold is_u32; lia|unfold is_u32; lia|lia|reflexivity|cbn; lia|].
  split; [exact Hw|exact Hl].
Defined.
